(** * Stock analysis dashboard: a shallow embedding of [stock.py]

    The program is a Streamlit page with one class, [StockAnalysisApp].
    Its methods call three remote services (market data, news search,
    text generation) and render the results.  The embedding keeps the
    methods' names and models

    - Python [str] values as sequences of Unicode code points,
    - Python [float] values as IEEE 754 binary64 numbers ([spec_float]
      at precision 53 and maximal exponent 1024),
    - [dict] payloads as finite maps with string keys,
    - [try]/[except Exception] with an outcome type, and
    - the Streamlit calls a method makes as the list of calls, in order. *)

From Stdlib Require Import ZArith NArith List String Ascii Bool Lia.
From Stdlib Require Import SpecFloat DecimalString.
From stdpp Require Import gmap strings list.

Local Open Scope Z_scope.

(** ** Python strings *)

Module PyStr.

(** A [str] is a sequence of code points. *)
Abbreviation pystr := (list N).

Fixpoint py (s : string) : pystr :=
  match s with
  | EmptyString => []
  | String a s' => N_of_ascii a :: py s'
  end.

(** [str.isspace] on one character: the code points whose
    bidirectional class is WS, B or srv, or whose category is Zs. *)
Definition isspace (c : N) : bool :=
  ((0x09 <=? c) && (c <=? 0x0D) || (0x1C <=? c) && (c <=? 0x20)
   || (c =? 0x85) || (c =? 0xA0) || (c =? 0x1680)
   || (0x2000 <=? c) && (c <=? 0x200A)
   || (c =? 0x2028) || (c =? 0x2029) || (c =? 0x202F)
   || (c =? 0x205F) || (c =? 0x3000))%N.

Fixpoint lstrip (s : pystr) : pystr :=
  match s with
  | c :: s' => if isspace c then lstrip s' else s
  | [] => []
  end.

Definition rstrip (s : pystr) : pystr := reverse (lstrip (reverse s)).

(** [s.strip()] *)
Definition strip (s : pystr) : pystr := lstrip (rstrip s).

Fixpoint startswith (s p : pystr) {struct p} : bool :=
  match p, s with
  | [], _ => true
  | a :: p', b :: s' => (a =? b)%N && startswith s' p'
  | _ :: _, [] => false
  end.

(** [sub in s] *)
Fixpoint contains (sub s : pystr) : bool :=
  startswith s sub ||
  match s with
  | [] => false
  | _ :: s' => contains sub s'
  end.

(** [s.split(sep)] for a one-character separator: never empty, and a
    separator at either end gives an empty piece there. *)
Fixpoint split (sep : N) (s : pystr) : list pystr :=
  match s with
  | [] => [[]]
  | c :: s' =>
      if (c =? sep)%N then [] :: split sep s'
      else match split sep s' with
           | l :: ls => (c :: l) :: ls
           | [] => [[c]]
           end
  end.

(** [sep.join(parts)] *)
Fixpoint join (sep : pystr) (parts : list pystr) : pystr :=
  match parts with
  | [] => []
  | [p] => p
  | p :: ps => p ++ sep ++ join sep ps
  end.

(** [s * n] *)
Fixpoint repeat_str (s : pystr) (n : nat) : pystr :=
  match n with
  | O => []
  | S n' => s ++ repeat_str s n'
  end.

Definition newline : N := 0x0A%N.

Arguments py : simpl never.

End PyStr.

Import PyStr.

(** ** Python numbers and their formatting *)

Module PyNum.

(** Python's [float] is binary64. *)
Definition prec : Z := 53.
Definition emax : Z := 1024.

Definition fmul : spec_float -> spec_float -> spec_float := SFmul prec emax.
Definition fdiv : spec_float -> spec_float -> spec_float := SFdiv prec emax.

(** The float nearest to an integer (ties to even); the result is an
    infinity when the integer is out of range. *)
Definition float_of_Z (n : Z) : spec_float := binary_normalize prec emax n 0 false.

(** The float a decimal literal [n / 10^d] denotes, e.g. [0.0123] is
    [decimal_literal 123 4]. Both operands are exact for the literals
    used below, so the division rounds once. *)
Definition decimal_literal (n : Z) (d : Z) : spec_float :=
  fdiv (float_of_Z n) (float_of_Z (10 ^ d)).

Definition float_is_zero (f : spec_float) : bool :=
  match f with S754_zero _ => true | _ => false end.

(** Decimal digits of a natural number, most significant first. *)
Definition digits (n : Z) : pystr :=
  py (DecimalString.NilZero.string_of_uint (N.to_uint (Z.to_N n))).

Definition sign_prefix (negative : bool) : pystr :=
  if negative then py "-" else [].

(** [str(n)] for an [int]. *)
Definition int_str (n : Z) : pystr := sign_prefix (n <? 0) ++ digits (Z.abs n).

Definition zeros (n : Z) : pystr := repeat_str (py "0") (Z.to_nat n).

(** Thousands separators: a comma before every group of three digits,
    counted from the right. *)
Fixpoint group3 (rev_digits : pystr) : pystr :=
  match rev_digits with
  | a :: b :: c :: (_ :: _) as rest => a :: b :: c :: 0x2C%N :: group3 rest
  | _ => rev_digits
  end.

Definition group_thousands (ds : pystr) : pystr := reverse (group3 (reverse ds)).

(** [format(n, ',')] for an [int]. *)
Definition int_format_comma (n : Z) : pystr :=
  sign_prefix (n <? 0) ++ group_thousands (digits (Z.abs n)).

(** [n / d] rounded to the nearest integer, ties to even ([0 <= n], [0 < d]). *)
Definition div_half_even (n d : Z) : Z :=
  let q := n / d in
  match 2 * (n mod d) ?= d with
  | Lt => q
  | Gt => q + 1
  | Eq => if Z.even q then q else q + 1
  end.

Definition fixed2 (negative : bool) (hundredths : Z) : pystr :=
  let frac := digits (hundredths mod 100) in
  sign_prefix negative ++ digits (hundredths / 100) ++ py "."
    ++ zeros (2 - Z.of_nat (length frac)) ++ frac.

(** [format(f, '.2f')] for a [float]: the exact binary value, rounded
    to two decimals with ties to even; the sign is kept even when the
    rounded value is zero. *)
Definition float_format_2f (f : spec_float) : pystr :=
  match f with
  | S754_nan => py "nan"
  | S754_infinity s => sign_prefix s ++ py "inf"
  | S754_zero s => fixed2 s 0
  | S754_finite s m e =>
      fixed2 s (if 0 <=? e then Z.pos m * 2 ^ e * 100
                else div_half_even (Z.pos m * 100) (2 ^ (- e)))
  end.

(** *** [repr] of a float: the shortest decimal that reads back as
    the same float, and the nearest to it among the shortest. *)

Definition cdiv (n d : Z) : Z := - ((- n) / d).

(** With the float [x = x4 * 2^e2] and its rounding interval
    [lo4 * 2^e2 .. hi4 * 2^e2] (closed when [incl]), the multiple
    [n * 10^k] in the interval that is nearest to [x], if there is one. *)
Definition candidate (x4 lo4 hi4 e2 : Z) (incl : bool) (k : Z) : option Z :=
  let up := (if 0 <=? e2 then 2 ^ e2 else 1) * (if k <? 0 then 10 ^ (- k) else 1) in
  let unit := (if 0 <=? e2 then 1 else 2 ^ (- e2)) * (if 0 <=? k then 10 ^ k else 1) in
  let nlo := if incl then cdiv (lo4 * up) unit else (lo4 * up) / unit + 1 in
  let nhi := if incl then (hi4 * up) / unit else cdiv (hi4 * up) unit - 1 in
  if (nlo <=? nhi) && (0 <? nhi)
  then Some (Z.min (Z.max (div_half_even (x4 * up) unit) nlo) nhi)
  else None.

Fixpoint shortest_from (fuel : nat) (x4 lo4 hi4 e2 : Z) (incl : bool) (k : Z)
  (exact : Z * Z) : Z * Z :=
  match fuel with
  | O => exact
  | S fuel' =>
      match candidate x4 lo4 hi4 e2 incl k with
      | Some n => (n, k)
      | None => shortest_from fuel' x4 lo4 hi4 e2 incl (k - 1) exact
      end
  end.

(** [(n, k)] with [n * 10^k] the shortest decimal for the binary64
    float [m * 2^e]. The search starts above the leading digit and
    ends, at the latest, at the exponent where the float itself is a
    multiple of [10^k]. *)
Definition shortest_digits (m : positive) (e : Z) : Z * Z :=
  let at_binade_start := (Z.pos m =? 2 ^ (prec - 1)) && (3 - emax - prec <? e) in
  let x4 := 4 * Z.pos m in
  let lo4 := x4 - (if at_binade_start then 1 else 2) in
  let hi4 := x4 + 2 in
  let k0 := (e + prec + 1) * 30103 / 100000 + 2 in
  let kmin := Z.min e 0 in
  let exact := if 0 <=? e then (Z.pos m * 2 ^ e, 0) else (Z.pos m * 5 ^ (- e), e) in
  shortest_from (Z.to_nat (k0 - kmin)) x4 lo4 hi4 (e - 2) (Z.even (Z.pos m)) k0 exact.

(** The digits laid out as [repr] does: positional notation when the
    decimal point falls within [-4 < decpt <= 16], exponent notation
    otherwise; [grouped] adds the thousands separators of the [','] format. *)
Definition float_layout (grouped : bool) (f : spec_float) : pystr :=
  match f with
  | S754_nan => py "nan"
  | S754_infinity s => sign_prefix s ++ py "inf"
  | S754_zero s => sign_prefix s ++ py "0.0"
  | S754_finite s m e =>
      let '(n, k) := shortest_digits m e in
      let ds := digits n in
      let len := Z.of_nat (length ds) in
      let decpt := len + k in
      let group := if grouped then group_thousands else (fun ds => ds) in
      sign_prefix s ++
      (if (decpt <=? -4) || (16 <? decpt) then
         let ex := digits (Z.abs (decpt - 1)) in
         take 1 ds ++ (if 1 <? len then py "." ++ drop 1 ds else [])
           ++ py "e" ++ (if decpt - 1 <? 0 then py "-" else py "+")
           ++ zeros (2 - Z.of_nat (length ex)) ++ ex
       else if decpt <=? 0 then py "0." ++ zeros (- decpt) ++ ds
       else if len <=? decpt then group (ds ++ zeros (decpt - len)) ++ py ".0"
       else group (take (Z.to_nat decpt) ds) ++ py "." ++ drop (Z.to_nat decpt) ds)
  end.

(** [repr(f)], which is also [str(f)] and [format(f, '')]. *)
Definition float_repr : spec_float -> pystr := float_layout false.

(** [format(f, ',')] *)
Definition float_format_comma : spec_float -> pystr := float_layout true.

End PyNum.

Import PyNum.

(** ** Python values, exceptions and the operations the program applies *)

Module Py.

(** The values an info payload holds: JSON scalars. *)
Inductive value :=
| PyNone
| PyBool (b : bool)
| PyInt (n : Z)
| PyFloat (f : spec_float)
| PyStr (s : pystr).

(** An instance of a subclass of [Exception], which is what the
    handlers of the program take; [str(e)] is [exn_msg e]. *)
Record exn := Exn { exn_class : string; exn_msg : pystr }.

Definition ValueError (msg : string) : exn := Exn "ValueError" (py msg).
Definition TypeError (msg : string) : exn := Exn "TypeError" (py msg).
Definition OverflowError (msg : string) : exn := Exn "OverflowError" (py msg).

(** What evaluating an expression or a call comes to. *)
Inductive outcome (A : Type) :=
| Returns (a : A)
| Raises (e : exn).
Arguments Returns {A} a.
Arguments Raises {A} e.

#[export] Instance outcome_ret : MRet outcome := fun A a => Returns a.
#[export] Instance outcome_bind : MBind outcome := fun A B k m =>
  match m with
  | Returns a => k a
  | Raises e => Raises e
  end.

(** [bool(v)] *)
Definition truthy (v : value) : bool :=
  match v with
  | PyNone => false
  | PyBool b => b
  | PyInt n => negb (n =? 0)
  | PyFloat f => negb (float_is_zero f)
  | PyStr s => negb (Nat.eqb (length s) 0)
  end.

(** [str(v)], which is what an f-string field without a format
    specification shows. *)
Definition str (v : value) : pystr :=
  match v with
  | PyNone => py "None"
  | PyBool b => if b then py "True" else py "False"
  | PyInt n => int_str n
  | PyFloat f => float_repr f
  | PyStr s => s
  end.

Definition float_of_int (n : Z) : outcome spec_float :=
  match float_of_Z n with
  | S754_infinity _ => Raises (OverflowError "int too large to convert to float")
  | f => Returns f
  end.

(** [v * n] for an [int] [n] *)
Definition mul_int (v : value) (n : Z) : outcome value :=
  match v with
  | PyNone => Raises (TypeError "unsupported operand type(s) for *: 'NoneType' and 'int'")
  | PyBool b => Returns (PyInt (Z.b2z b * n))
  | PyInt a => Returns (PyInt (a * n))
  | PyFloat f => fn ← float_of_int n; Returns (PyFloat (fmul f fn))
  | PyStr s => Returns (PyStr (repeat_str s (Z.to_nat n)))
  end.

(** [format(v, '.2f')] *)
Definition format_2f (v : value) : outcome pystr :=
  match v with
  | PyNone => Raises (TypeError "unsupported format string passed to NoneType.__format__")
  | PyBool b => f ← float_of_int (Z.b2z b); Returns (float_format_2f f)
  | PyInt n => f ← float_of_int n; Returns (float_format_2f f)
  | PyFloat f => Returns (float_format_2f f)
  | PyStr _ => Raises (ValueError "Unknown format code 'f' for object of type 'str'")
  end.

(** [format(v, ',')] *)
Definition format_comma (v : value) : outcome pystr :=
  match v with
  | PyNone => Raises (TypeError "unsupported format string passed to NoneType.__format__")
  | PyBool b => Returns (int_format_comma (Z.b2z b))
  | PyInt n => Returns (int_format_comma n)
  | PyFloat f => Returns (float_format_comma f)
  | PyStr _ => Raises (ValueError "Cannot specify ',' with 's'.")
  end.

(** [d.get(key, default)] and [d.get(key)] *)
Definition get {V} (d : gmap string V) (key : string) (default : V) : V :=
  match d !! key with
  | Some v => v
  | None => default
  end.

Definition get_or_none (d : gmap string value) (key : string) : value :=
  get d key PyNone.

(** [bool(d)] for a dict *)
Definition dict_truthy {V} (d : gmap string V) : bool := negb (Nat.eqb (size d) 0).

End Py.

Import Py.

(** ** The application *)

Module StockAnalysisApp.

(** A [pandas.DataFrame], by its rows in index order (oldest first for
    the frames the market-data service returns); a row maps the
    names of the frame's columns to its cells, so a frame with rows and
    no columns is a list of empty rows. [pd.DataFrame()] is the frame
    without rows. *)
Definition frame := list (gmap string value).

(** [df.empty]: an axis of length 0, that is, no row or no column. *)
Definition frame_empty (df : frame) : bool :=
  forallb (fun row : gmap string value => Nat.eqb (size row) 0) df.

(** [df.tail(n)] *)
Definition tail (n : nat) (df : frame) : frame := drop (length df - n) df.

(** A news item as the search service returns it. *)
Definition article := gmap string pystr.

(** The remote services, by what each request comes to: the
    market-data service ([yfinance], three requests on the ticker
    object), the news search ([DDGS().news], with [max_results]) and
    the text generation ([gemini_model.generate_content] with
    [max_output_tokens], up to the reading of [response.text]).
    Building the client objects makes no request. *)
Record services := {
  yf_history : pystr -> pystr -> outcome frame;
  yf_info : pystr -> outcome (gmap string value);
  yf_recommendations : pystr -> outcome frame;
  ddgs_news : pystr -> nat -> outcome (list article);
  gemini_generate_content : pystr -> nat -> outcome pystr
}.

(** The Streamlit calls the modelled methods make. *)
Inductive st_call :=
| st_header (body : pystr)
| st_subheader (body : pystr)
| st_markdown (body : pystr)
| st_spinner (text : pystr)
| st_success (body : pystr)
| st_write (body : pystr)
| st_error (body : pystr).

(** The dict [fetch_stock_data] returns. Its keys are fixed; the field
    names below are the keys with [_] for the space, and
    [Week_52_High], [Week_52_Low] for ['52 Week High'], ['52 Week Low']. *)
Record basic_info := {
  Company_Name : value;
  Sector : value;
  Industry : value;
  Market_Cap : pystr
}.

Record current_price := {
  Current : value;
  Week_52_High : value;
  Week_52_Low : value
}.

Record financial_health := {
  PE_Ratio : value;
  Dividend_Yield : pystr;
  ROE : pystr
}.

Record stock_data := {
  Basic_Info : basic_info;
  Current_Price : current_price;
  Financial_Health : financial_health;
  Recommendations : frame;
  Historical_Data : frame;
  News : list article
}.

Definition NA : pystr := py "N/A".

(** The expression of lines 71 and 72,
    [f"{info.get(key, 'N/A')*100:.2f}%" if info.get(key) else 'N/A']. *)
Definition percent_field (info : gmap string value) (key : string) : outcome pystr :=
  if truthy (get_or_none info key)
  then scaled ← mul_int (get info key (PyStr NA)) 100;
       text ← format_2f scaled;
       mret (text ++ py "%")
  else mret NA.

(** The expression of line 62, [f"${info.get('marketCap', 'N/A'):,}"]. *)
Definition market_cap_field (info : gmap string value) : outcome pystr :=
  text ← format_comma (get info "marketCap" (PyStr NA));
  mret (py "$" ++ text).

(** The query of line 55, [f"{info.get('longName', ticker)} stock news"]. *)
Definition news_query (info : gmap string value) (ticker : pystr) : pystr :=
  str (get info "longName" (PyStr ticker)) ++ py " stock news".

(** Lines 48 to 51: the recommendations, or an empty frame when the
    request fails. *)
Definition recommendations_or_empty (srv : services) (ticker : pystr) : frame :=
  match yf_recommendations srv ticker with
  | Returns r => r
  | Raises _ => []
  end.

(** Lines 47 to 77 of [fetch_stock_data]: what follows the info check. *)
Definition snapshot_of (srv : services) (ticker : pystr) (hist_data : frame)
  (info : gmap string value) : outcome stock_data :=
  let recommendations := recommendations_or_empty srv ticker in
  ddg_news ← ddgs_news srv (news_query info ticker) 10;
  market_cap ← market_cap_field info;
  dividend_yield ← percent_field info "dividendYield";
  roe ← percent_field info "returnOnEquity";
  mret {|
    Basic_Info := {|
      Company_Name := get info "longName" (PyStr NA);
      Sector := get info "sector" (PyStr NA);
      Industry := get info "industry" (PyStr NA);
      Market_Cap := market_cap |};
    Current_Price := {|
      Current := get info "currentPrice" (PyStr NA);
      Week_52_High := get info "fiftyTwoWeekHigh" (PyStr NA);
      Week_52_Low := get info "fiftyTwoWeekLow" (PyStr NA) |};
    Financial_Health := {|
      PE_Ratio := get info "trailingPE" (PyStr NA);
      Dividend_Yield := dividend_yield;
      ROE := roe |};
    Recommendations := if negb (frame_empty recommendations) then tail 5 recommendations else [];
    Historical_Data := hist_data;
    News := ddg_news |}.

(** Lines 78 to 80: the handler around the whole method. *)
Definition unexpected (e : exn) : list st_call * option stock_data :=
  ([st_error (py "Unexpected error fetching stock data: " ++ exn_msg e)], None).

(** [fetch_stock_data(ticker)]: the Streamlit calls made and the value
    returned, [None] or the snapshot. *)
Definition fetch_stock_data (srv : services) (ticker : pystr) : list st_call * option stock_data :=
  let body : outcome (list st_call * option stock_data) :=
    hist_data ← yf_history srv ticker (py "1y");
    match yf_info srv ticker with
    | Raises e => mret ([st_error (py "Error fetching stock info: " ++ exn_msg e)], None)
    | Returns info =>
        if negb (dict_truthy info)
        then mret ([st_error (py "No data found for ticker: " ++ ticker)], None)
        else data ← snapshot_of srv ticker hist_data info; mret ([], Some data)
    end in
  match body with
  | Returns r => r
  | Raises e => unexpected e
  end.

(** The failure marker, U+274C. *)
Definition cross_mark : pystr := [0x274C%N].

Definition lines_text (ls : list pystr) : pystr := join [newline] ls.

(** The prompt [generate_gemini_analysis] builds (lines 85 to 108). *)
Definition analysis_prompt (data : stock_data) (news : list article) : pystr :=
  let news_summary :=
    lines_text (map (fun a : article => py "Title: " ++ get a "title" NA) (take 3 news)) in
  lines_text [
    py "Provide a concise stock analysis and decision recommendation based on the following information:";
    [];
    py "Company Details:";
    py "- Name: " ++ str (Company_Name (Basic_Info data));
    py "- Sector: " ++ str (Sector (Basic_Info data));
    py "- Market Cap: " ++ Market_Cap (Basic_Info data);
    [];
    py "Financial Metrics:";
    py "- Current Price: " ++ str (Current (Current_Price data));
    py "- P/E Ratio: " ++ str (PE_Ratio (Financial_Health data));
    py "- Dividend Yield: " ++ Dividend_Yield (Financial_Health data);
    [];
    py "Recent News Headlines:";
    news_summary;
    [];
    py "Analysis Requirements:";
    py "1. Provide a **clear decision recommendation** (Buy/Hold/Sell) in the first line.";
    py "2. Summarize the **key reasons** for the recommendation in 2-3 bullet points.";
    py "3. Keep the analysis concise and focused on actionable insights." ].

(** [generate_gemini_analysis(stock_data, news)] *)
Definition generate_gemini_analysis (srv : services) (data : stock_data) (news : list article) : pystr :=
  match gemini_generate_content srv (analysis_prompt data news) 500 with
  | Returns text => text
  | Raises e => cross_mark ++ py " Gemini Analysis Error: " ++ exn_msg e
  end.

(** Lines 198 to 205 of [display_ai_decision_support]: the analysis
    shown as a decision and its reasons. *)
Definition show_verdict (ai_analysis : pystr) : list st_call :=
  let lines := split newline ai_analysis in
  [st_markdown (py "### Decision Recommendation");
   st_success (hd [] lines);
   st_markdown (py "### Key Reasons")]
  ++ flat_map (fun line =>
                 if truthy (PyStr (strip line))
                 then [st_write (py "- " ++ strip line)]
                 else [])
       (List.tl lines).

(** Lines 197 to 207: the check for the failure marker. *)
Definition show_analysis (ai_analysis : pystr) : list st_call :=
  if negb (contains cross_mark ai_analysis)
  then show_verdict ai_analysis
  else [st_error ai_analysis].

Definition news_markdown (a : article) : pystr :=
  let indent := py "            " in
  lines_text [
    [];
    indent ++ py "**" ++ get a "title" (py "No Title") ++ py "**";
    indent;
    indent ++ py "Source: " ++ get a "source" (py "Unknown");
    indent;
    indent ++ py "[Read More](" ++ get a "url" (py "#") ++ py ")";
    indent;
    indent ++ py "---";
    indent ].

(** [display_ai_decision_support(stock_data)] *)
Definition display_ai_decision_support (srv : services) (data : stock_data) : list st_call :=
  [st_header (py "AI Decision Support: " ++ str (Company_Name (Basic_Info data)));
   st_subheader (py "Recent News")]
  ++ map (fun a => st_markdown (news_markdown a)) (take 3 (News data))
  ++ [st_subheader (py "AI Agent Investment Insights");
      st_spinner (py "Generating AI-powered decision support...")]
  ++ show_analysis (generate_gemini_analysis srv data (News data)).

End StockAnalysisApp.

Import StockAnalysisApp.

(** ** The rest of the application: the pages and the session *)

Module StockAnalysisPages.

(** What [pandas] answers about a frame: its index, and a column by
    name, which is a [KeyError] when the frame has no such column. *)
Record pandas := {
  df_index : frame -> list value;
  df_column : frame -> pystr -> outcome (list value)
}.

(** What the Streamlit run this script is part of provides: the values
    the sidebar widgets return (the text input given its label and the
    value it is offered, the radio given its label and options, the
    button given its label), and the exception for an attribute that
    the session state does not have. *)
Record streamlit := {
  text_input : pystr -> value -> pystr;
  radio : pystr -> list pystr -> pystr;
  button : pystr -> bool;
  missing_attribute : string -> exn
}.

(** A [plotly] trace and figure. *)
Inductive trace :=
| Candlestick (x open high low close : list value) (name : pystr)
| Bar (x y : list value) (name : pystr).

Record figure := {
  fig_data : list trace;
  fig_layout : gmap string value
}.

(** The Streamlit calls of the whole script: those above and the ones
    the other methods make. [st_metric] carries the column it is made
    in, counted from 0 within the last [st_columns]. *)
Inductive page_call :=
| call (c : st_call)
| st_set_page_config (page_title page_icon layout : pystr)
| st_title (body : pystr)
| st_sidebar_header (body : pystr)
| st_sidebar_text_input (label : pystr) (offered : value)
| st_sidebar_radio (label : pystr) (options : list pystr)
| st_sidebar_button (label : pystr)
| st_columns (spec : nat)
| st_metric (column : nat) (label : pystr) (shown : value)
| st_dataframe (data : frame)
| st_plotly_chart (fig : figure).

(** What running a method comes to: the session state it leaves, the
    calls it made, and the exception that ended it, if one did. *)
Record run := {
  final_state : gmap string value;
  shown : list page_call;
  raised : option exn
}.

Definition chart_increasing : pystr := [0x1F4C8%N].

(** The session part of [__init__] (lines 17 and 18). *)
Definition init_session (session_state : gmap string value) : gmap string value :=
  match session_state !! "ticker" with
  | Some _ => session_state
  | None => <["ticker" := PyStr (py "NVDA")]> session_state
  end.

(** [__init__]: the session state it leaves and the call it makes. The
    keys it reads from the environment and the model object it builds
    make no request; they stand behind [gemini_generate_content]. *)
Definition init (session_state : gmap string value) : gmap string value * list page_call :=
  (init_session session_state,
   [st_set_page_config (py "Stock Analysis Dashboard") chart_increasing (py "wide")]).

(** [plot_stock_price(hist_data)] *)
Definition plot_stock_price (pd : pandas) (hist_data : frame) : outcome figure :=
  let x := df_index pd hist_data in
  open ← df_column pd hist_data (py "Open");
  high ← df_column pd hist_data (py "High");
  low ← df_column pd hist_data (py "Low");
  close ← df_column pd hist_data (py "Close");
  mret {| fig_data := [Candlestick x open high low close (py "Price")];
          fig_layout :=
            <["title" := PyStr (py "Stock Price Movement")]>
            (<["xaxis_title" := PyStr (py "Date")]>
            (<["yaxis_title" := PyStr (py "Price")]>
            (<["xaxis_rangeslider_visible" := PyBool false]> ∅))) |}.

(** [plot_volume_chart(hist_data)] *)
Definition plot_volume_chart (pd : pandas) (hist_data : frame) : outcome figure :=
  let x := df_index pd hist_data in
  y ← df_column pd hist_data (py "Volume");
  mret {| fig_data := [Bar x y (py "Volume")];
          fig_layout :=
            <["title" := PyStr (py "Trading Volume")]>
            (<["xaxis_title" := PyStr (py "Date")]>
            (<["yaxis_title" := PyStr (py "Volume")]> ∅)) |}.

(** [display_price_charts(stock_data)]: the calls made, and the
    exception that ended the method, if one did. *)
Definition display_price_charts (pd : pandas) (data : stock_data) : list page_call * option exn :=
  let head :=
    [call (st_header (py "Price Analysis: " ++ str (Company_Name (Basic_Info data))));
     call (st_subheader (py "Stock Price Movement"))] in
  match plot_stock_price pd (Historical_Data data) with
  | Raises e => (head, Some e)
  | Returns price_chart =>
      let middle := [st_plotly_chart price_chart; call (st_subheader (py "Trading Volume"))] in
      match plot_volume_chart pd (Historical_Data data) with
      | Raises e => (head ++ middle, Some e)
      | Returns volume_chart => (head ++ middle ++ [st_plotly_chart volume_chart], None)
      end
  end.

(** [d.items()] for the two dicts of the snapshot that the overview
    enumerates, in the order of their keys. *)
Definition price_items (p : current_price) : list (pystr * value) :=
  [(py "Current", Current p);
   (py "52 Week High", Week_52_High p);
   (py "52 Week Low", Week_52_Low p)].

Definition financial_items (f : financial_health) : list (pystr * value) :=
  [(py "P/E Ratio", PE_Ratio f);
   (py "Dividend Yield", PyStr (Dividend_Yield f));
   (py "ROE", PyStr (ROE f))].

(** The loop [for i, (key, value) in enumerate(items): cols[i].metric(key, value)]. *)
Definition metrics_in_columns (items : list (pystr * value)) : list page_call :=
  imap (fun i item => st_metric i (fst item) (snd item)) items.

(** [display_overview_section(stock_data)] *)
Definition display_overview_section (data : stock_data) : list page_call :=
  [call (st_header (py "Company Overview: " ++ str (Company_Name (Basic_Info data))));
   st_columns 3;
   st_metric 0 (py "Sector") (Sector (Basic_Info data));
   st_metric 1 (py "Market Cap") (PyStr (Market_Cap (Basic_Info data)));
   st_metric 2 (py "Industry") (Industry (Basic_Info data));
   call (st_subheader (py "Price Performance"));
   st_columns 3]
  ++ metrics_in_columns (price_items (Current_Price data))
  ++ [call (st_subheader (py "Financial Health"));
      st_columns 3]
  ++ metrics_in_columns (financial_items (Financial_Health data))
  ++ [call (st_subheader (py "Recent Analyst Recommendations"));
      if negb (frame_empty (Recommendations data))
      then st_dataframe (Recommendations data)
      else call (st_write (py "No recent recommendations available"))].

Definition analysis_types : list pystr :=
  [py "Overview"; py "Price Charts"; py "AI Decision Support"].

(** Lines 138 to 144: the section for a snapshot. *)
Definition display_section (srv : services) (pd : pandas) (analysis_type : pystr)
  (data : stock_data) : list page_call * option exn :=
  if bool_decide (analysis_type = py "Overview")
  then (display_overview_section data, None)
  else if bool_decide (analysis_type = py "Price Charts")
  then display_price_charts pd data
  else (map call (display_ai_decision_support srv data), None).

(** [display_dashboard()] *)
Definition display_dashboard (srv : services) (pd : pandas) (ui : streamlit)
  (session_state : gmap string value) : run :=
  let opening :=
    [st_title (chart_increasing ++ py " Advanced Stock Analysis Dashboard with AI Decision Support");
     st_sidebar_header (py "Stock Selector")] in
  match session_state !! "ticker" with
  | None =>
      {| final_state := session_state; shown := opening;
         raised := Some (missing_attribute ui "ticker") |}
  | Some offered =>
      let ticker := text_input ui (py "Enter Stock Ticker") offered in
      let state := <["ticker" := PyStr ticker]> session_state in
      let analysis_type := radio ui (py "Select Analysis Type") analysis_types in
      let widgets :=
        opening ++
        [st_sidebar_text_input (py "Enter Stock Ticker") offered;
         st_sidebar_radio (py "Select Analysis Type") analysis_types;
         st_sidebar_button (py "Analyze Stock")] in
      if button ui (py "Analyze Stock")
      then
        let '(reports, stock_data) := fetch_stock_data srv ticker in
        match stock_data with
        | Some data =>
            let '(section, e) := display_section srv pd analysis_type data in
            {| final_state := state; shown := widgets ++ map call reports ++ section;
               raised := e |}
        | None =>
            {| final_state := state; shown := widgets ++ map call reports; raised := None |}
        end
      else {| final_state := state; shown := widgets; raised := None |}
  end.

(** The script: [app = StockAnalysisApp()] and [app.run()]. *)
Definition main (srv : services) (pd : pandas) (ui : streamlit)
  (session_state : gmap string value) : run :=
  let '(state, config) := init session_state in
  let r := display_dashboard srv pd ui state in
  {| final_state := final_state r; shown := config ++ shown r; raised := raised r |}.

End StockAnalysisPages.

Import StockAnalysisPages.

(** * The vocabulary of the properties *)

(** [sub in s] holds exactly when [sub] occurs in [s]. *)
Definition occurs_in (sub s : pystr) : Prop := exists pre post, s = pre ++ sub ++ post.

(** A line is blank when it holds white space only. *)
Definition blank (line : pystr) : bool := forallb isspace line.

Definition not_blank (line : pystr) : bool := negb (blank line).

(** What a rendering shows as the decision and as the reasons: the
    bodies of the [st.success] calls, and the bodies of the [st.write]
    calls after the two characters of the bullet. *)
Definition shown_headline (calls : list st_call) : list pystr :=
  flat_map (fun c => match c with st_success body => [body] | _ => [] end) calls.

Definition shown_reasons (calls : list st_call) : list pystr :=
  flat_map (fun c => match c with st_write body => [drop 2 body] | _ => [] end) calls.

(** The text the spec gives a present value: the value times 100, with
    two decimals, followed by the percent sign. *)
Definition percent_text (v : value) : outcome pystr :=
  scaled ← mul_int v 100;
  text ← format_2f scaled;
  mret (text ++ py "%").

(** An exception [e] raised after the info check and not taken by an
    inner handler: by the news search, or by the formatting of one of
    the three derived fields, in the order the method evaluates them. *)
Definition raised_after_info (srv : services) (ticker : pystr)
  (info : gmap string value) (e : exn) : Prop :=
  ddgs_news srv (news_query info ticker) 10 = Raises e \/
  (exists n, ddgs_news srv (news_query info ticker) 10 = Returns n) /\
  (market_cap_field info = Raises e \/
   (exists mc, market_cap_field info = Returns mc) /\
   (percent_field info "dividendYield" = Raises e \/
    (exists dy, percent_field info "dividendYield" = Returns dy) /\
    percent_field info "returnOnEquity" = Raises e)).

Definition comma : N := 0x2C%N.

(** [out] is [ds] with thousands separators: the commas taken out give
    [ds] back, counted from the right every fourth character and no
    other is a comma, and the text does not begin with one. *)
Definition thousands_separated (ds out : pystr) : Prop :=
  filter (fun c => c <> comma) out = ds /\
  (forall i c, reverse out !! i = Some c -> c = comma <-> (i mod 4 = 3)%nat) /\
  head out <> Some comma.

(** ** Sample payloads *)

Module Samples.

Definition acme : pystr := py "ACME".

Definition acme_info : gmap string value :=
  <["longName" := PyStr (py "Acme Corp")]>
  (<["marketCap" := PyInt 123456789]>
  (<["dividendYield" := PyFloat (decimal_literal 123 4)]> ∅)).

(** The same company without a market cap. *)
Definition acme_info_no_cap : gmap string value :=
  <["longName" := PyStr (py "Acme Corp")]> ∅.

(** The same company with a dividend yield of [0.0]. *)
Definition acme_info_zero_yield : gmap string value :=
  <["dividendYield" := PyFloat (S754_zero false)]> acme_info.

Definition rating (month : Z) : gmap string value :=
  <["period" := PyInt month]> (<["buy" := PyInt (2 * month)]> ∅).

Definition eight_ratings : frame := map rating [1; 2; 3; 4; 5; 6; 7; 8].

Definition acme_news : list article :=
  [ <["title" := py "Acme ships"]> (<["source" := py "Wire"]> ∅) ].

Definition timeout : exn := Exn "TimeoutError" (py "timed out").

(** Services that answer every request the same way. *)
Definition answering (info : outcome (gmap string value)) (recs : outcome frame)
  (news : outcome (list article)) (text : outcome pystr) : services :=
  {| yf_history := fun _ _ => Returns [];
     yf_info := fun _ => info;
     yf_recommendations := fun _ => recs;
     ddgs_news := fun _ _ => news;
     gemini_generate_content := fun _ _ => text |}.

Definition text_lines (ls : list string) : pystr := lines_text (map py ls).

Definition acme_snapshot : stock_data :=
  {| Basic_Info :=
       {| Company_Name := PyStr (py "Acme Corp"); Sector := PyStr NA;
          Industry := PyStr NA; Market_Cap := py "$123,456,789" |};
     Current_Price :=
       {| Current := PyFloat (decimal_literal 4275 2); Week_52_High := PyStr NA;
          Week_52_Low := PyStr NA |};
     Financial_Health :=
       {| PE_Ratio := PyInt 17; Dividend_Yield := py "1.23%"; ROE := NA |};
     Recommendations := [];
     Historical_Data := [];
     News := acme_news |}.

End Samples.

Import Samples.

(** ** The vocabulary of the further properties *)

(** A frame has a column when there is a name under which every row
    has a cell. *)
Definition has_column (df : frame) : Prop :=
  exists c : string, Forall (fun row : gmap string value => is_Some (row !! c)) df.

(** The calls [display_dashboard] makes before it looks at the button. *)
Definition dashboard_widgets (offered : value) : list page_call :=
  [st_title (chart_increasing ++ py " Advanced Stock Analysis Dashboard with AI Decision Support");
   st_sidebar_header (py "Stock Selector");
   st_sidebar_text_input (py "Enter Stock Ticker") offered;
   st_sidebar_radio (py "Select Analysis Type") analysis_types;
   st_sidebar_button (py "Analyze Stock")].

(** The four columns of the price chart. *)
Definition price_columns : list pystr := [py "Open"; py "High"; py "Low"; py "Close"].

Definition is_chart (c : page_call) : bool :=
  match c with st_plotly_chart _ => true | _ => false end.

(** Two service records that differ at most in the text generation. *)
Definition same_data_services (srv srv' : services) : Prop :=
  yf_history srv = yf_history srv' /\
  yf_info srv = yf_info srv' /\
  yf_recommendations srv = yf_recommendations srv' /\
  ddgs_news srv = ddgs_news srv'.

Definition is_number (v : value) : Prop :=
  match v with
  | PyBool _ | PyInt _ | PyFloat _ => True
  | PyNone | PyStr _ => False
  end.

(** The titles of the first three articles, as the prompt reads them. *)
Definition top_titles (news : list article) : list (option pystr) :=
  map (fun a : article => a !! "title") (take 3 news).

(** ** Further sample payloads *)

Module MoreSamples.

(** Column selection over frames given by their rows: a column is
    there when every row has it. *)
Definition by_rows : pandas :=
  {| df_index := fun df => map (fun r => get r "Date" PyNone) df;
     df_column := fun df c =>
       match mapM (fun r : gmap string value => r !! String.string_of_list_ascii (map ascii_of_N c)) df with
       | Some col => Returns col
       | None => Raises (Exn "KeyError" (py "'" ++ c ++ py "'"))
       end |}.

(** Column selection on a frame without columns. *)
Definition no_columns : pandas :=
  {| df_index := fun _ => [];
     df_column := fun _ c => Raises (Exn "KeyError" (py "'" ++ c ++ py "'")) |}.

Definition bar (day : Z) (volume : option Z) : gmap string value :=
  let prices : gmap string value :=
    <["Date" := PyInt day]>
    (<["Open" := PyInt 10]>
    (<["High" := PyInt 12]>
    (<["Low" := PyInt 9]>
    (<["Close" := PyInt 11]> ∅)))) in
  match volume with
  | Some n => <["Volume" := PyInt n]> prices
  | None => prices
  end.

Definition with_history (hist : frame) : stock_data :=
  {| Basic_Info := Basic_Info acme_snapshot;
     Current_Price := Current_Price acme_snapshot;
     Financial_Health := Financial_Health acme_snapshot;
     Recommendations := Recommendations acme_snapshot;
     Historical_Data := hist;
     News := News acme_snapshot |}.

(** A user who has typed [typed], chosen [choice] and pressed the
    button or not. *)
Definition user (typed choice : pystr) (pressed : bool) : streamlit :=
  {| text_input := fun _ _ => typed;
     radio := fun _ _ => choice;
     button := fun _ => pressed;
     missing_attribute := fun name => Exn "AttributeError" (py name) |}.

(** A frame with three rows and no columns. *)
Definition three_bare_rows : frame := [∅; ∅; ∅].

Definition acme_info_none_sector : gmap string value :=
  <["sector" := PyNone]> acme_info.

Definition acme_info_none_cap : gmap string value :=
  <["marketCap" := PyNone]> acme_info.

End MoreSamples.

Import MoreSamples.

(** * Properties *)

(** ** Numbers *)

(** The rounding of the ['.2f'] format is to a nearest integer. *)
Lemma div_half_even_nearest n d :
  0 <= n -> 0 < d ->
  - d <= 2 * (n - div_half_even n d * d) <= d.
Proof.
  intros Hn Hd. unfold div_half_even.
  assert (d <> 0) as Hd0 by lia.
  pose proof (Z.div_mod n d Hd0) as Hdm.
  pose proof (Z.mod_pos_bound n d Hd) as Hr.
  generalize dependent (n mod d). generalize dependent (n / d). intros q r Hdm Hr.
  assert (n - q * d = r) as Hq by (rewrite Hdm; ring).
  assert (n - (q + 1) * d = r - d) as Hq1 by (rewrite Hdm; ring).
  destruct (Z.compare_spec (2 * r) d) as [E|E|E].
  - destruct (Z.even q); [rewrite Hq | rewrite Hq1]; lia.
  - rewrite Hq. lia.
  - rewrite Hq1. lia.
Qed.

Example literal_0_0123 :
  decimal_literal 123 4 = S754_finite false 7090467253332109 (-59).
Proof. vm_compute. reflexivity. Qed.

Example product_0_0123_100 :
  fmul (decimal_literal 123 4) (float_of_Z 100) = decimal_literal 123 2.
Proof. vm_compute. reflexivity. Qed.

Example format_2f_ties :
  map float_format_2f
    [decimal_literal 125 3; decimal_literal 375 3; decimal_literal 2675 3;
     SFopp (decimal_literal 1 5); S754_zero true]
  = [py "0.12"; py "0.38"; py "2.67"; py "-0.00"; py "-0.00"].
Proof. vm_compute. reflexivity. Qed.

Example float_repr_samples :
  map float_repr
    [decimal_literal 1 1; decimal_literal 4275 2; float_of_Z (10 ^ 16);
     float_of_Z (10 ^ 15); decimal_literal 1 5; fmul (decimal_literal 123 4) (float_of_Z 100)]
  = [py "0.1"; py "42.75"; py "1e+16"; py "1000000000000000.0"; py "1e-05"; py "1.23"].
Proof. vm_compute. reflexivity. Qed.

Example float_format_comma_samples :
  map float_format_comma
    [decimal_literal 12345675 1; float_of_Z 123456789; float_of_Z (10 ^ 22)]
  = [py "1,234,567.5"; py "123,456,789.0"; py "1e+22"].
Proof. vm_compute. reflexivity. Qed.

Example int_format_comma_samples :
  map int_format_comma [0; 999; 1000; -1234; 123456789]
  = [py "0"; py "999"; py "1,000"; py "-1,234"; py "123,456,789"].
Proof. vm_compute. reflexivity. Qed.

(** ** Strings *)

Section StringFacts.

Implicit Types s p sub pre post line : pystr.

Lemma startswith_app p post : startswith (p ++ post) p = true.
Proof.
  induction p as [|a p IH]; [done|].
  cbn. rewrite N.eqb_refl. exact IH.
Qed.

Lemma startswith_inv s p : startswith s p = true -> exists post, s = p ++ post.
Proof.
  revert s. induction p as [|a p IH]; intros s H.
  - by exists s.
  - destruct s as [|b s]; [discriminate|].
    cbn in H. apply andb_true_iff in H as [Hab Hrest].
    apply N.eqb_eq in Hab as ->.
    destruct (IH _ Hrest) as [post ->]. by exists post.
Qed.

Lemma contains_unfold sub s :
  contains sub s = startswith s sub || match s with [] => false | _ :: s' => contains sub s' end.
Proof. by destruct s. Qed.

Lemma contains_occurs sub s : contains sub s = true <-> occurs_in sub s.
Proof.
  split.
  - induction s as [|c s IH]; rewrite contains_unfold; intros H;
      apply orb_true_iff in H as [H|H].
    + apply startswith_inv in H as [post ->]. by exists [], post.
    + discriminate.
    + apply startswith_inv in H as [post ->]. by exists [], post.
    + destruct (IH H) as (pre & post & ->). by exists (c :: pre), post.
  - intros (pre & post & ->).
    induction pre as [|c pre IH]; rewrite contains_unfold.
    + cbn [app]. by rewrite startswith_app.
    + cbn [app]. rewrite IH. apply orb_true_r.
Qed.

Lemma not_contains_occurs sub s : contains sub s = false <-> ~ occurs_in sub s.
Proof.
  rewrite <- contains_occurs. by destruct (contains sub s).
Qed.

Lemma split_cons sep s : exists l ls, split sep s = l :: ls.
Proof.
  induction s as [|c s (l & ls & IH)]; cbn; [by eexists _, _|].
  destruct (c =? sep)%N; [by eexists _, _|].
  rewrite IH. by eexists _, _.
Qed.

Lemma join_cons sep p l ls : join sep (p :: l :: ls) = p ++ sep ++ join sep (l :: ls).
Proof. done. Qed.

(** The pieces put together again with the separator give the text. *)
Lemma join_split sep s : join [sep] (split sep s) = s.
Proof.
  induction s as [|c s IH]; [done|].
  cbn [split]. destruct (split_cons sep s) as (l & ls & Hs). rewrite Hs in *.
  destruct (c =? sep)%N eqn:E.
  - apply N.eqb_eq in E as ->. rewrite join_cons, IH. done.
  - destruct ls as [|l' ls].
    + cbn in *. by rewrite IH.
    + rewrite join_cons in *. rewrite <- IH. done.
Qed.

(** No piece holds the separator. *)
Lemma split_no_sep sep s : Forall (fun l => sep ∉ l) (split sep s).
Proof.
  induction s as [|c s IH]; cbn [split].
  - constructor; [apply not_elem_of_nil | constructor].
  - destruct (c =? sep)%N eqn:E.
    + constructor; [apply not_elem_of_nil | exact IH].
    + destruct (split_cons sep s) as (l & ls & Hs). rewrite Hs in *.
      inversion IH as [|? ? Hl Hls]; subst.
      constructor; [|exact Hls].
      rewrite elem_of_cons. intros [->|Hin]; [|by apply Hl].
      by rewrite N.eqb_refl in E.
Qed.

Lemma lstrip_nil s : lstrip s = [] <-> blank s = true.
Proof.
  induction s as [|c s IH]; cbn; [done|].
  destruct (isspace c); cbn; [exact IH|]. split; discriminate.
Qed.

Lemma lstrip_head s c r : lstrip s = c :: r -> isspace c = false.
Proof.
  induction s as [|d s IH]; cbn; [discriminate|].
  destruct (isspace d) eqn:E; [exact IH|]. by intros [= <- _].
Qed.

Lemma blank_rev s : blank (reverse s) = blank s.
Proof.
  unfold blank, reverse. rewrite <- rev_alt. induction s as [|c s IH]; [done|].
  cbn. rewrite forallb_app, IH. cbn. rewrite andb_true_r. apply andb_comm.
Qed.

Lemma strip_nil line : strip line = [] <-> blank line = true.
Proof.
  unfold strip, rstrip. rewrite lstrip_nil. split.
  - intros H. destruct (lstrip (reverse line)) as [|c r] eqn:E.
    + apply lstrip_nil in E. by rewrite blank_rev in E.
    + apply lstrip_head in E. rewrite blank_rev in H.
      cbn in H. by rewrite E in H.
  - intros H. rewrite <- blank_rev in H. apply lstrip_nil in H. by rewrite H.
Qed.

Lemma strip_truthy line : truthy (PyStr (strip line)) = negb (blank line).
Proof.
  cbn. destruct (strip line) eqn:E.
  - apply strip_nil in E. by rewrite E.
  - destruct (blank line) eqn:B; [|done].
    apply strip_nil in B. congruence.
Qed.

End StringFacts.

(** ** The shape of [fetch_stock_data] *)

Section FetchFacts.

Variable srv : services.
Variable ticker : pystr.

(** Once the info check has passed, the result is decided by the rest
    of the method. *)
Lemma fetch_after_info hist_data info :
  yf_history srv ticker (py "1y") = Returns hist_data ->
  yf_info srv ticker = Returns info ->
  dict_truthy info = true ->
  fetch_stock_data srv ticker =
    match snapshot_of srv ticker hist_data info with
    | Returns data => ([], Some data)
    | Raises e => unexpected e
    end.
Proof.
  intros Hh Hi Ht. unfold fetch_stock_data, mbind, outcome_bind.
  rewrite Hh, Hi, Ht. cbn [negb]. by destruct snapshot_of.
Qed.

(** A snapshot is returned only on the path through the whole method. *)
Lemma fetch_Some_inv calls data :
  fetch_stock_data srv ticker = (calls, Some data) ->
  calls = [] /\
  exists hist_data info,
    yf_history srv ticker (py "1y") = Returns hist_data /\
    yf_info srv ticker = Returns info /\
    dict_truthy info = true /\
    snapshot_of srv ticker hist_data info = Returns data.
Proof.
  unfold fetch_stock_data, mbind, outcome_bind, mret, outcome_ret.
  destruct (yf_history srv ticker (py "1y")) as [h|]; [|discriminate].
  destruct (yf_info srv ticker) as [info|]; [|discriminate].
  destruct (dict_truthy info) eqn:Ht; cbn [negb]; [|discriminate].
  destruct (snapshot_of srv ticker h info) as [d|] eqn:Hd; [|discriminate].
  intros [= <- <-]. split; [done|]. by exists h, info.
Qed.

Lemma snapshot_of_inv hist_data info data :
  snapshot_of srv ticker hist_data info = Returns data ->
  exists ddg_news market_cap dividend_yield roe,
    ddgs_news srv (news_query info ticker) 10 = Returns ddg_news /\
    market_cap_field info = Returns market_cap /\
    percent_field info "dividendYield" = Returns dividend_yield /\
    percent_field info "returnOnEquity" = Returns roe /\
    Market_Cap (Basic_Info data) = market_cap /\
    Dividend_Yield (Financial_Health data) = dividend_yield /\
    ROE (Financial_Health data) = roe /\
    Recommendations data =
      (if negb (frame_empty (recommendations_or_empty srv ticker))
       then tail 5 (recommendations_or_empty srv ticker) else []) /\
    Historical_Data data = hist_data /\
    News data = ddg_news.
Proof.
  unfold snapshot_of, mbind, outcome_bind, mret, outcome_ret.
  destruct (ddgs_news srv (news_query info ticker) 10) as [n|]; [|discriminate].
  destruct (market_cap_field info) as [mc|]; [|discriminate].
  destruct (percent_field info "dividendYield") as [dy|]; [|discriminate].
  destruct (percent_field info "returnOnEquity") as [r|]; [|discriminate].
  intros [= <-]. by exists n, mc, dy, r.
Qed.

End FetchFacts.

(** ** Failures of the info lookup *)

Lemma dict_truthy_empty {V} (d : gmap string V) : dict_truthy d = false <-> d = ∅.
Proof.
  unfold dict_truthy. rewrite negb_false_iff, Nat.eqb_eq. apply map_size_empty_iff.
Qed.

(** C4. When the info lookup raises or returns an empty payload,
    [fetch_stock_data] returns [None] after exactly one error report;
    when the lookup is reached (the history request before it
    returned), the report is the one about the stock info, respectively
    the one that no data was found for the ticker. *)
Theorem fetch_without_info (srv : services) (ticker : pystr) :
  (exists e, yf_info srv ticker = Raises e) \/ yf_info srv ticker = Returns ∅ ->
  (exists report, fetch_stock_data srv ticker = ([st_error report], None)) /\
  (forall hist_data, yf_history srv ticker (py "1y") = Returns hist_data ->
     (forall e, yf_info srv ticker = Raises e ->
        fetch_stock_data srv ticker =
          ([st_error (py "Error fetching stock info: " ++ exn_msg e)], None)) /\
     (yf_info srv ticker = Returns ∅ ->
        fetch_stock_data srv ticker =
          ([st_error (py "No data found for ticker: " ++ ticker)], None))).
Proof.
  intros H. unfold fetch_stock_data, mbind, outcome_bind, mret, outcome_ret. split.
  - destruct (yf_history srv ticker (py "1y")) as [h|e0]; [|by eexists].
    destruct H as [[e ->] | ->]; by eexists.
  - intros h ->. split; [by intros e -> | by intros ->].
Qed.

Lemma fetch_without_info_witness :
  fetch_stock_data (answering (Raises timeout) (Returns []) (Returns []) (Returns [])) acme
  = ([st_error (py "Error fetching stock info: timed out")], None).
Proof.
  refine (proj1 (proj2 (fetch_without_info
    (answering (Raises timeout) (Returns []) (Returns []) (Returns [])) acme _) [] _) timeout _).
  - left. exists timeout. reflexivity.
  - reflexivity.
  - reflexivity.
Defined.

(** ** Failures after the info check *)

(** The rest of the method raises exactly in those cases; a failure of
    the recommendations request is not among them. *)
Lemma snapshot_of_raises (srv : services) (ticker : pystr) hist_data info e :
  snapshot_of srv ticker hist_data info = Raises e <-> raised_after_info srv ticker info e.
Proof.
  unfold raised_after_info.
  unfold snapshot_of, mbind, outcome_bind, mret, outcome_ret.
  destruct (ddgs_news srv (news_query info ticker) 10) as [n|e1].
  2:{ split; [intros [= ->]; by left | intros [[= ->] | [[n [=]] _]]; done]. }
  destruct (market_cap_field info) as [mc|e2].
  2:{ split; [intros [= ->]; right; split; [by eexists | by left]|].
      intros [[=] | [_ [[= ->] | [[mc [=]] _]]]]; done. }
  destruct (percent_field info "dividendYield") as [dy|e3].
  2:{ split.
      - intros [= ->]. right; split; [by eexists|]. right; split; [by eexists|]. by left.
      - intros [[=] | [_ [[=] | [_ [[= ->] | [[dy [=]] _]]]]]]; done. }
  destruct (percent_field info "returnOnEquity") as [r|e4].
  - split; [discriminate|].
    intros [[=] | [_ [[=] | [_ [[=] | [_ [=]]]]]]].
  - split.
    + intros [= ->]. right; split; [by eexists|]. right; split; [by eexists|].
      right; split; [by eexists | done].
    + intros [[=] | [_ [[=] | [_ [[=] | [_ [= ->]]]]]]]; done.
Qed.


(** C9. An exception raised after the info check that no inner handler
    takes (by the news search or by the formatting of a field; the
    recommendations request has its own handler) makes
    [fetch_stock_data] report one generic error with the exception's
    text and return [None]. *)
Theorem fetch_unexpected_error (srv : services) (ticker : pystr) hist_data info e :
  yf_history srv ticker (py "1y") = Returns hist_data ->
  yf_info srv ticker = Returns info ->
  dict_truthy info = true ->
  raised_after_info srv ticker info e ->
  fetch_stock_data srv ticker =
    ([st_error (py "Unexpected error fetching stock data: " ++ exn_msg e)], None).
Proof.
  intros Hh Hi Ht He. rewrite (fetch_after_info srv ticker hist_data info Hh Hi Ht).
  apply (snapshot_of_raises srv ticker hist_data) in He. by rewrite He.
Qed.

Lemma fetch_unexpected_error_witness :
  fetch_stock_data (answering (Returns acme_info) (Returns eight_ratings) (Raises timeout) (Returns [])) acme
  = ([st_error (py "Unexpected error fetching stock data: timed out")], None).
Proof.
  apply (fetch_unexpected_error
    (answering (Returns acme_info) (Returns eight_ratings) (Raises timeout) (Returns []))
    acme [] acme_info timeout).
  - reflexivity.
  - reflexivity.
  - reflexivity.
  - left. reflexivity.
Defined.

(** ** Recommendations *)

Lemma frame_empty_true (df : frame) :
  frame_empty df = true <-> Forall (fun row => row = ∅) df.
Proof.
  unfold frame_empty. rewrite forallb_forall, Forall_forall.
  split; intros H row Hin.
  - apply map_size_empty_iff, Nat.eqb_eq, H. by apply list_elem_of_In.
  - apply Nat.eqb_eq, map_size_empty_iff, H. by apply list_elem_of_In.
Qed.

Lemma frame_empty_false (df : frame) :
  frame_empty df = false <-> exists row, row ∈ df /\ row <> ∅.
Proof.
  split.
  - intros H. destruct (decide (Forall (fun row => row = ∅) df)) as [Hall|Hex].
    + apply frame_empty_true in Hall. congruence.
    + apply not_Forall_Exists in Hex; [|intros row; apply _].
      apply Exists_exists in Hex as (row & Hin & Hne). by exists row.
  - intros (row & Hin & Hne). destruct (frame_empty df) eqn:E; [|done].
    apply frame_empty_true in E. by apply (proj1 (Forall_forall _ _) E) in Hin.
Qed.

Lemma has_column_not_empty (df : frame) :
  has_column df -> df <> [] -> frame_empty df = false.
Proof.
  intros [c Hc] Hne. destruct df as [|row df]; [done|].
  apply frame_empty_false. exists row. split; [apply list_elem_of_here|].
  apply Forall_cons in Hc as [[v Hv] _]. intros ->. by rewrite lookup_empty in Hv.
Qed.

Lemma fetch_snapshot_fields (srv : services) (ticker : pystr) calls data info :
  yf_info srv ticker = Returns info ->
  fetch_stock_data srv ticker = (calls, Some data) ->
  market_cap_field info = Returns (Market_Cap (Basic_Info data)) /\
  percent_field info "dividendYield" = Returns (Dividend_Yield (Financial_Health data)) /\
  percent_field info "returnOnEquity" = Returns (ROE (Financial_Health data)) /\
  Recommendations data =
    (if negb (frame_empty (recommendations_or_empty srv ticker))
     then tail 5 (recommendations_or_empty srv ticker) else []).
Proof.
  intros Hi Hf.
  apply fetch_Some_inv in Hf as (_ & h & info' & _ & Hi' & _ & Hs).
  rewrite Hi in Hi'. injection Hi' as <-.
  apply snapshot_of_inv in Hs
    as (n & mc & dy & r & _ & Hmc & Hdy & Hr & <- & <- & <- & Hrec & _).
  done.
Qed.

(** The claim that a failed or empty recommendations request never
    stands in the way of a snapshot, once the info payload is there,
    fails: the news search after it can still raise, and the method
    then returns [None]. *)
Lemma fetch_fails_after_recommendations :
  let srv := answering (Returns acme_info) (Raises timeout) (Raises timeout) (Returns []) in
  yf_info srv acme = Returns acme_info /\
  dict_truthy acme_info = true /\
  yf_recommendations srv acme = Raises timeout /\
  ~ (exists calls data, fetch_stock_data srv acme = (calls, Some data)).
Proof.
  cbv zeta. repeat split. intros (calls & data & H).
  vm_compute in H. discriminate H.
Qed.

(** C3, amended. When the info payload is there and not empty, the
    news search returns and the three derived fields format, a
    recommendations request that raises or returns an empty frame does
    not stand in the way: [fetch_stock_data] returns a snapshot, without
    any report, whose recommendations are the empty frame. *)
Theorem fetch_without_recommendations (srv : services) (ticker : pystr)
  hist_data info ddg_news market_cap dividend_yield roe :
  yf_history srv ticker (py "1y") = Returns hist_data ->
  yf_info srv ticker = Returns info ->
  dict_truthy info = true ->
  (exists e, yf_recommendations srv ticker = Raises e) \/ yf_recommendations srv ticker = Returns [] ->
  ddgs_news srv (news_query info ticker) 10 = Returns ddg_news ->
  market_cap_field info = Returns market_cap ->
  percent_field info "dividendYield" = Returns dividend_yield ->
  percent_field info "returnOnEquity" = Returns roe ->
  exists data,
    fetch_stock_data srv ticker = ([], Some data) /\ Recommendations data = [].
Proof.
  intros Hh Hi Ht Hrec Hn Hmc Hdy Hroe.
  rewrite (fetch_after_info srv ticker hist_data info Hh Hi Ht).
  unfold snapshot_of, mbind, outcome_bind, mret, outcome_ret.
  rewrite Hn, Hmc, Hdy, Hroe.
  eexists. split; [reflexivity|]. cbn [Recommendations].
  unfold recommendations_or_empty. by destruct Hrec as [[e ->] | ->].
Qed.

Lemma fetch_without_recommendations_witness :
  exists data,
    fetch_stock_data (answering (Returns acme_info) (Raises timeout) (Returns acme_news) (Returns [])) acme
    = ([], Some data) /\ Recommendations data = [].
Proof.
  apply (fetch_without_recommendations
    (answering (Returns acme_info) (Raises timeout) (Returns acme_news) (Returns []))
    acme [] acme_info acme_news (py "$123,456,789") (py "1.23%") (py "N/A")).
  - reflexivity.
  - reflexivity.
  - reflexivity.
  - left. exists timeout. reflexivity.
  - reflexivity.
  - vm_compute. reflexivity.
  - vm_compute. reflexivity.
  - vm_compute. reflexivity.
Defined.

Lemma tail_suffix n (df : frame) : exists older, df = older ++ tail n df.
Proof. exists (take (length df - n) df). unfold tail. by rewrite take_drop. Qed.

Lemma tail_length n (df : frame) : length (tail n df) = Nat.min n (length df).
Proof. unfold tail. rewrite length_drop. lia. Qed.

(** C8. For a frame of rows with at least one column, the
    recommendations of a snapshot are the last five rows of the frame
    the service returned, in the order of the frame: exactly five rows
    when the frame has more, and the whole frame when it has five or
    fewer. *)
Theorem recommendations_last_five (srv : services) (ticker : pystr) calls data rows :
  yf_recommendations srv ticker = Returns rows ->
  has_column rows ->
  fetch_stock_data srv ticker = (calls, Some data) ->
  (exists older, rows = older ++ Recommendations data) /\
  length (Recommendations data) = Nat.min 5 (length rows) /\
  ((5 < length rows)%nat ->
     Recommendations data = drop (length rows - 5) rows /\
     length (Recommendations data) = 5%nat) /\
  ((length rows <= 5)%nat -> Recommendations data = rows).
Proof.
  intros Hr Hcol Hf.
  destruct (fetch_Some_inv srv ticker calls data Hf) as (_ & h & info & _ & Hi & _ & _).
  destruct (fetch_snapshot_fields srv ticker calls data info Hi Hf) as (_ & _ & _ & ->).
  unfold recommendations_or_empty. rewrite Hr.
  destruct rows as [|r rows].
  - cbn. split; [by exists []|]. split; [done|].
    split; [intros Hlen; cbn in Hlen; lia | done].
  - rewrite (has_column_not_empty (r :: rows) Hcol) by done. cbn [negb].
    split; [apply tail_suffix|]. split; [apply tail_length|]. split.
    + intros Hlen. split; [done|]. rewrite tail_length. cbn [length] in *. lia.
    + intros Hlen. unfold tail. cbn [length] in *.
      by replace (S (length rows) - 5)%nat with 0%nat by lia.
Qed.

Lemma recommendations_last_five_witness :
  exists calls data,
    fetch_stock_data (answering (Returns acme_info) (Returns eight_ratings) (Returns acme_news) (Returns [])) acme
    = (calls, Some data) /\
    Recommendations data = map rating [4; 5; 6; 7; 8].
Proof.
  eexists _, _. split; [vm_compute; reflexivity|].
  refine (proj1 (proj1 (proj2 (proj2 (recommendations_last_five
    (answering (Returns acme_info) (Returns eight_ratings) (Returns acme_news) (Returns []))
    acme _ _ eight_ratings _ _ _))) _)).
  - reflexivity.
  - exists "period". repeat constructor; vm_compute; by eexists.
  - vm_compute. reflexivity.
  - vm_compute. lia.
Defined.

(** ** A payload without a market cap *)

Lemma market_cap_field_absent info :
  info !! "marketCap" = None ->
  market_cap_field info = Raises (ValueError "Cannot specify ',' with 's'.").
Proof. intros H. unfold market_cap_field, get. by rewrite H. Qed.

(** The keys read with a plain default do give the marker when absent. *)
Lemma absent_fields_marked (srv : services) (ticker : pystr) calls data info :
  yf_info srv ticker = Returns info ->
  fetch_stock_data srv ticker = (calls, Some data) ->
  (info !! "longName" = None -> Company_Name (Basic_Info data) = PyStr (py "N/A")) /\
  (info !! "sector" = None -> Sector (Basic_Info data) = PyStr (py "N/A")) /\
  (info !! "industry" = None -> Industry (Basic_Info data) = PyStr (py "N/A")) /\
  (info !! "currentPrice" = None -> Current (Current_Price data) = PyStr (py "N/A")) /\
  (info !! "fiftyTwoWeekHigh" = None -> Week_52_High (Current_Price data) = PyStr (py "N/A")) /\
  (info !! "fiftyTwoWeekLow" = None -> Week_52_Low (Current_Price data) = PyStr (py "N/A")) /\
  (info !! "trailingPE" = None -> PE_Ratio (Financial_Health data) = PyStr (py "N/A")).
Proof.
  intros Hi Hf.
  apply fetch_Some_inv in Hf as (_ & h & info' & _ & Hi' & _ & Hs).
  rewrite Hi in Hi'. injection Hi' as <-.
  unfold snapshot_of, mbind, outcome_bind, mret, outcome_ret in Hs.
  destruct (ddgs_news srv (news_query info ticker) 10); [|discriminate].
  destruct (market_cap_field info); [|discriminate].
  destruct (percent_field info "dividendYield"); [|discriminate].
  destruct (percent_field info "returnOnEquity"); [|discriminate].
  injection Hs as <-. unfold get. cbn.
  repeat split; by intros ->.
Qed.

(** C1. An info payload without [marketCap] does not give a snapshot
    whose market cap is the marker; it gives no snapshot. Line 62
    applies the thousands format to the ['N/A'] default, which raises;
    when the requests around it return, the method reports that as an
    unexpected error and returns [None]. *)
Theorem fetch_absent_market_cap (srv : services) (ticker : pystr) info :
  yf_info srv ticker = Returns info ->
  info !! "marketCap" = None ->
  snd (fetch_stock_data srv ticker) = None /\
  (forall hist_data ddg_news,
     yf_history srv ticker (py "1y") = Returns hist_data ->
     dict_truthy info = true ->
     ddgs_news srv (news_query info ticker) 10 = Returns ddg_news ->
     fetch_stock_data srv ticker =
       ([st_error (py "Unexpected error fetching stock data: Cannot specify ',' with 's'.")],
        None)).
Proof.
  intros Hi Hcap. split.
  - destruct (fetch_stock_data srv ticker) as [calls [data|]] eqn:Hf; [|done].
    destruct (fetch_snapshot_fields srv ticker calls data info Hi Hf) as (Hmc & _).
    by rewrite (market_cap_field_absent info Hcap) in Hmc.
  - intros hist_data ddg_news Hh Ht Hn.
    rewrite (fetch_after_info srv ticker hist_data info Hh Hi Ht).
    unfold snapshot_of, mbind, outcome_bind.
    by rewrite Hn, (market_cap_field_absent info Hcap).
Qed.

Lemma fetch_absent_market_cap_witness :
  fetch_stock_data
    (answering (Returns acme_info_no_cap) (Returns eight_ratings) (Returns acme_news) (Returns []))
    acme
  = ([st_error (py "Unexpected error fetching stock data: Cannot specify ',' with 's'.")],
     None).
Proof.
  refine (proj2 (fetch_absent_market_cap
    (answering (Returns acme_info_no_cap) (Returns eight_ratings) (Returns acme_news) (Returns []))
    acme acme_info_no_cap _ _) [] acme_news _ _ _); reflexivity.
Defined.

(** ** The percentage fields *)

Lemma percent_text_float f :
  percent_text (PyFloat f) = Returns (float_format_2f (fmul f (float_of_Z 100)) ++ py "%").
Proof. reflexivity. Qed.

Example percent_text_0_0123 :
  percent_text (PyFloat (decimal_literal 123 4)) = Returns (py "1.23%").
Proof. vm_compute. reflexivity. Qed.

Lemma percent_field_truthy info key v :
  info !! key = Some v -> truthy v = true -> percent_field info key = percent_text v.
Proof.
  intros Hv Ht. unfold percent_field, get_or_none, get. by rewrite Hv, Ht.
Qed.

Lemma percent_field_falsy info key :
  info !! key = None \/ (exists v, info !! key = Some v /\ truthy v = false) ->
  percent_field info key = Returns NA.
Proof.
  unfold percent_field, get_or_none, get.
  intros [-> | (v & -> & ->)]; reflexivity.
Qed.

(** The claim that every present value is shown as a percentage fails
    at [0.0]: the value is in the payload, its percentage text would be
    ["0.00%"], and the field is ["N/A"]. *)
Lemma percent_field_zero_yield :
  acme_info_zero_yield !! "dividendYield" = Some (PyFloat (S754_zero false)) /\
  percent_text (PyFloat (S754_zero false)) = Returns (py "0.00%") /\
  percent_field acme_info_zero_yield "dividendYield" = Returns (py "N/A") /\
  percent_field acme_info_zero_yield "dividendYield" <> percent_text (PyFloat (S754_zero false)).
Proof.
  repeat split; try (vm_compute; reflexivity).
  vm_compute. discriminate.
Qed.

(** C6, amended. In a snapshot, the dividend yield (and likewise the
    ROE) of a payload that holds a truthy value, such as a number other
    than zero, is that value times 100 with two decimals and a percent
    sign, so ["1.23%"] for [0.0123]; when the payload has no such key,
    or holds [None], zero or another falsy value, the field is ["N/A"]. *)
Theorem percent_fields_of_snapshot (srv : services) (ticker : pystr) calls data info :
  yf_info srv ticker = Returns info ->
  fetch_stock_data srv ticker = (calls, Some data) ->
  (forall v, info !! "dividendYield" = Some v -> truthy v = true ->
     percent_text v = Returns (Dividend_Yield (Financial_Health data))) /\
  (info !! "dividendYield" = None \/
   (exists v, info !! "dividendYield" = Some v /\ truthy v = false) ->
     Dividend_Yield (Financial_Health data) = py "N/A") /\
  (forall v, info !! "returnOnEquity" = Some v -> truthy v = true ->
     percent_text v = Returns (ROE (Financial_Health data))) /\
  (info !! "returnOnEquity" = None \/
   (exists v, info !! "returnOnEquity" = Some v /\ truthy v = false) ->
     ROE (Financial_Health data) = py "N/A").
Proof.
  intros Hi Hf.
  destruct (fetch_snapshot_fields srv ticker calls data info Hi Hf) as (_ & Hdy & Hroe & _).
  repeat split.
  - intros v Hv Ht. by rewrite <- Hdy, (percent_field_truthy _ _ v Hv Ht).
  - intros H. rewrite (percent_field_falsy _ _ H) in Hdy. by injection Hdy as <-.
  - intros v Hv Ht. by rewrite <- Hroe, (percent_field_truthy _ _ v Hv Ht).
  - intros H. rewrite (percent_field_falsy _ _ H) in Hroe. by injection Hroe as <-.
Qed.

Lemma percent_fields_of_snapshot_witness :
  exists calls data,
    fetch_stock_data (answering (Returns acme_info) (Returns []) (Returns acme_news) (Returns [])) acme
    = (calls, Some data) /\
    Dividend_Yield (Financial_Health data) = py "1.23%" /\
    ROE (Financial_Health data) = py "N/A".
Proof.
  eexists _, _. split; [vm_compute; reflexivity|].
  pose proof (percent_fields_of_snapshot
    (answering (Returns acme_info) (Returns []) (Returns acme_news) (Returns []))
    acme _ _ acme_info eq_refl eq_refl) as (Hdy & _ & _ & Hroe).
  split.
  - specialize (Hdy (PyFloat (decimal_literal 123 4)) eq_refl eq_refl).
    apply (f_equal (fun o => match o with Returns t => t | Raises _ => [] end)) in Hdy.
    symmetry. exact Hdy.
  - apply Hroe. left. vm_compute. reflexivity.
Defined.

(** C10. A dividend yield (or ROE) that is in the payload with the
    value [0.0] is shown as ["N/A"], not as the ["0.00%"] its
    percentage text would be: the guard of lines 71 and 72 tests the
    truth value of the entry, and zero is falsy. *)
Theorem zero_percent_not_available (srv : services) (ticker : pystr) calls data info :
  yf_info srv ticker = Returns info ->
  fetch_stock_data srv ticker = (calls, Some data) ->
  (forall s, info !! "dividendYield" = Some (PyFloat (S754_zero s)) ->
     Dividend_Yield (Financial_Health data) = py "N/A") /\
  (forall s, info !! "returnOnEquity" = Some (PyFloat (S754_zero s)) ->
     ROE (Financial_Health data) = py "N/A") /\
  percent_text (PyFloat (S754_zero false)) = Returns (py "0.00%") /\
  truthy (PyFloat (S754_zero false)) = false.
Proof.
  intros Hi Hf.
  destruct (fetch_snapshot_fields srv ticker calls data info Hi Hf) as (_ & Hdy & Hroe & _).
  repeat split.
  - intros s Hs.
    rewrite (percent_field_falsy info _) in Hdy; [by injection Hdy as <-|].
    right. by exists (PyFloat (S754_zero s)).
  - intros s Hs.
    rewrite (percent_field_falsy info _) in Hroe; [by injection Hroe as <-|].
    right. by exists (PyFloat (S754_zero s)).
Qed.

Lemma zero_percent_not_available_witness :
  exists calls data,
    fetch_stock_data
      (answering (Returns acme_info_zero_yield) (Returns []) (Returns acme_news) (Returns [])) acme
    = (calls, Some data) /\
    Dividend_Yield (Financial_Health data) = py "N/A".
Proof.
  eexists _, _. split; [vm_compute; reflexivity|].
  refine (proj1 (zero_percent_not_available
    (answering (Returns acme_info_zero_yield) (Returns []) (Returns acme_news) (Returns []))
    acme _ _ acme_info_zero_yield eq_refl eq_refl) false _).
  vm_compute. reflexivity.
Defined.

(** ** The market cap *)

Section Grouping.

Lemma group3_ind (P : pystr -> Prop) :
  P [] -> (forall a, P [a]) -> (forall a b, P [a; b]) -> (forall a b c, P [a; b; c]) ->
  (forall a b c d rest, P (d :: rest) -> P (a :: b :: c :: d :: rest)) ->
  forall l, P l.
Proof.
  intros H0 H1 H2 H3 Hstep l.
  assert (forall n l, (length l <= n)%nat -> P l) as Hn; [|by apply (Hn (length l))].
  clear l. induction n as [|n IH]; intros l Hl.
  - destruct l; [done | cbn in Hl; lia].
  - destruct l as [|a [|b [|c [|d rest]]]]; try done.
    apply Hstep, IH. cbn in *. lia.
Qed.

Lemma group3_step a b c d rest :
  group3 (a :: b :: c :: d :: rest) = a :: b :: c :: comma :: group3 (d :: rest).
Proof. done. Qed.

Lemma filter_all l :
  Forall (fun c => c <> comma) l -> filter (fun c => c <> comma) l = l.
Proof.
  induction 1 as [|x l Hx _ IH]; [done|].
  rewrite filter_cons_True by done. by rewrite IH.
Qed.

Lemma group3_filter l :
  Forall (fun c => c <> comma) l -> filter (fun c => c <> comma) (group3 l) = l.
Proof.
  induction l as [|a|a b|a b c|a b c d rest IH] using group3_ind; intros Hl.
  1-4: by apply filter_all.
  rewrite group3_step.
  inversion Hl as [|? ? Ha Hl1]; subst. inversion Hl1 as [|? ? Hb Hl2]; subst.
  inversion Hl2 as [|? ? Hc Hl3]; subst.
  do 3 (rewrite filter_cons_True by done).
  rewrite filter_cons_False by (intros H; by apply H).
  by rewrite IH.
Qed.

Lemma group3_commas l :
  Forall (fun c => c <> comma) l ->
  forall i c, group3 l !! i = Some c -> c = comma <-> (i mod 4 = 3)%nat.
Proof.
  induction l as [|a|a b|a b c|a b c d rest IH] using group3_ind; intros Hl i x Hi.
  1-4: assert (x <> comma) as Hx
    by (eapply (proj1 (Forall_forall _ _) Hl), list_elem_of_lookup_2, Hi);
    apply lookup_lt_Some in Hi; cbn in Hi;
    split; [done | intros Hm; destruct i as [|[|[|[|?]]]]; cbn in *; lia].
  rewrite group3_step in Hi.
  inversion Hl as [|? ? Ha Hl1]; subst. inversion Hl1 as [|? ? Hb Hl2]; subst.
  inversion Hl2 as [|? ? Hc Hl3]; subst.
  destruct i as [|[|[|[|i]]]]; cbn in Hi.
  1-3: injection Hi as <-; split; [done | cbn; lia].
  - injection Hi as <-. done.
  - rewrite (IH Hl3 i x Hi).
    replace (S (S (S (S i)))) with (i + 1 * 4)%nat by lia.
    by rewrite Nat.Div0.mod_add.
Qed.

Lemma group3_head d rest : exists t, group3 (d :: rest) = d :: t.
Proof. destruct rest as [|b [|c [|e r]]]; by eexists. Qed.

Lemma last_not_comma l : Forall (fun c => c <> comma) l -> last l <> Some comma.
Proof.
  intros Hl H. apply last_Some_elem_of in H.
  by apply (proj1 (Forall_forall _ _) Hl) in H.
Qed.

Lemma group3_last l : Forall (fun c => c <> comma) l -> last (group3 l) <> Some comma.
Proof.
  induction l as [|a|a b|a b c|a b c d rest IH] using group3_ind; intros Hl.
  1-4: by apply last_not_comma.
  rewrite group3_step.
  inversion Hl as [|? ? Ha Hl1]; subst. inversion Hl1 as [|? ? Hb Hl2]; subst.
  inversion Hl2 as [|? ? Hc Hl3]; subst.
  specialize (IH Hl3).
  destruct (group3_head d rest) as [t E]. rewrite E in *.
  by rewrite !last_cons_cons.
Qed.

(** [group_thousands] puts thousands separators into a text without commas. *)
Lemma group_thousands_separated ds :
  Forall (fun c => c <> comma) ds -> thousands_separated ds (group_thousands ds).
Proof.
  intros Hds. unfold thousands_separated, group_thousands.
  assert (Forall (fun c => c <> comma) (reverse ds)) as Hrev by by apply Forall_reverse.
  split; [|split].
  - rewrite filter_reverse, group3_filter by done. apply reverse_involutive.
  - rewrite reverse_involutive. by apply group3_commas.
  - rewrite head_reverse. by apply group3_last.
Qed.

End Grouping.

Lemma py_cons a s : py (String a s) = N_of_ascii a :: py s.
Proof. reflexivity. Qed.

Lemma digits_no_comma n : Forall (fun c => c <> comma) (digits n).
Proof.
  unfold digits. generalize (N.to_uint (Z.to_N n)). intros d.
  assert (Forall (fun c => c <> comma) (py (NilEmpty.string_of_uint d))) as H.
  { induction d; cbn [NilEmpty.string_of_uint];
      [constructor | rewrite py_cons; constructor; [by vm_compute | done]..]. }
  destruct d; try exact H.
  cbn [NilZero.string_of_uint]. rewrite py_cons. constructor; [by vm_compute | constructor].
Qed.

Lemma market_cap_field_int info n :
  info !! "marketCap" = Some (PyInt n) ->
  market_cap_field info = Returns (py "$" ++ int_format_comma n).
Proof. intros H. unfold market_cap_field, get. by rewrite H. Qed.

(** C7. In a snapshot, an integer market cap is shown as a dollar sign
    followed by the number (its sign, then its decimal digits) with
    thousands separators; [123456789] is shown as ["$123,456,789"]. *)
Theorem market_cap_of_snapshot (srv : services) (ticker : pystr) calls data info n :
  yf_info srv ticker = Returns info ->
  info !! "marketCap" = Some (PyInt n) ->
  fetch_stock_data srv ticker = (calls, Some data) ->
  (exists grouped,
     Market_Cap (Basic_Info data) = py "$" ++ sign_prefix (n <? 0) ++ grouped /\
     thousands_separated (digits (Z.abs n)) grouped) /\
  (n = 123456789 -> Market_Cap (Basic_Info data) = py "$123,456,789").
Proof.
  intros Hi Hn Hf.
  destruct (fetch_snapshot_fields srv ticker calls data info Hi Hf) as (Hmc & _).
  rewrite (market_cap_field_int info n Hn) in Hmc. injection Hmc as Hmc.
  split.
  - exists (group_thousands (digits (Z.abs n))). split; [done|].
    apply group_thousands_separated, digits_no_comma.
  - intros ->. rewrite <- Hmc. vm_compute. reflexivity.
Qed.

Lemma market_cap_of_snapshot_witness :
  exists calls data,
    fetch_stock_data (answering (Returns acme_info) (Returns []) (Returns acme_news) (Returns [])) acme
    = (calls, Some data) /\
    Market_Cap (Basic_Info data) = py "$123,456,789".
Proof.
  eexists _, _. split; [vm_compute; reflexivity|].
  refine (proj2 (market_cap_of_snapshot
    (answering (Returns acme_info) (Returns []) (Returns acme_news) (Returns []))
    acme _ _ acme_info 123456789 _ _ _) _).
  - reflexivity.
  - vm_compute. reflexivity.
  - reflexivity.
  - reflexivity.
Defined.

(** ** The analysis text *)

Lemma flat_map_filter {A B} (p : A -> bool) (g : A -> B) (l : list A) :
  flat_map (fun x => if p x then [g x] else []) l = map g (List.filter p l).
Proof.
  induction l as [|x l IH]; [done|].
  cbn. destruct (p x); cbn; by rewrite IH.
Qed.

Lemma show_verdict_calls s :
  show_verdict s =
    [st_markdown (py "### Decision Recommendation");
     st_success (hd [] (split newline s));
     st_markdown (py "### Key Reasons")]
    ++ map (fun line => st_write (py "- " ++ strip line))
         (List.filter not_blank (List.tl (split newline s))).
Proof.
  unfold show_verdict. cbv zeta. f_equal.
  rewrite <- flat_map_filter. apply flat_map_ext. intros line.
  by rewrite strip_truthy.
Qed.

Lemma shown_reasons_writes (rs : list pystr) :
  shown_reasons (map (fun r => st_write (py "- " ++ r)) rs) = rs.
Proof.
  induction rs as [|r rs IH]; [done|].
  unfold shown_reasons in *. cbn [map flat_map app]. rewrite IH. reflexivity.
Qed.

Lemma shown_reasons_verdict s :
  shown_reasons (show_verdict s)
  = map strip (List.filter not_blank (List.tl (split newline s))).
Proof.
  rewrite show_verdict_calls. cbn [app shown_reasons flat_map].
  rewrite <- (map_map strip (fun r => st_write (py "- " ++ r))).
  apply shown_reasons_writes.
Qed.

Lemma shown_headline_verdict s :
  shown_headline (show_verdict s) = [hd [] (split newline s)].
Proof.
  rewrite show_verdict_calls. cbn [app shown_headline flat_map]. f_equal.
  generalize (List.filter not_blank (List.tl (split newline s))).
  intros l. by induction l.
Qed.

(** The claim that the reasons are the non-blank lines themselves fails
    on a line with white space around its text: the reason shown is
    the line without it. *)
Lemma reason_is_stripped :
  let s := text_lines ["Buy"; "  x "] in
  List.filter not_blank (List.tl (split newline s)) = [py "  x "] /\
  shown_reasons (show_verdict s) = [py "x"] /\
  shown_reasons (show_verdict s) <> List.filter not_blank (List.tl (split newline s)).
Proof. cbv zeta. repeat split. vm_compute. discriminate. Qed.

(** C5, amended. The text is cut at its newlines. The first piece is
    shown as the decision, whatever it says; of the pieces after it,
    those that are not blank are shown as the reasons, in their order,
    each without the white space at its ends. So
    ["Buy\n- reason one\n- reason two"] gives the decision ["Buy"] and
    the reasons ["- reason one"] and ["- reason two"]. *)
Theorem verdict_of_text (s : pystr) :
  let lines := split newline s in
  join [newline] lines = s /\
  Forall (fun line => newline ∉ line) lines /\
  shown_headline (show_verdict s) = [hd [] lines] /\
  shown_reasons (show_verdict s) = map strip (List.filter not_blank (List.tl lines)) /\
  show_verdict s =
    [st_markdown (py "### Decision Recommendation");
     st_success (hd [] lines);
     st_markdown (py "### Key Reasons")]
    ++ map (fun line => st_write (py "- " ++ strip line)) (List.filter not_blank (List.tl lines)) /\
  shown_headline (show_verdict (text_lines ["Buy"; "- reason one"; "- reason two"]))
    = [py "Buy"] /\
  shown_reasons (show_verdict (text_lines ["Buy"; "- reason one"; "- reason two"]))
    = [py "- reason one"; py "- reason two"].
Proof.
  cbv zeta. split; [apply join_split|]. split; [apply split_no_sep|].
  rewrite show_verdict_calls. repeat split.
  - cbn [app shown_headline flat_map]. f_equal.
    generalize (List.filter not_blank (List.tl (split newline s))).
    intros l. by induction l.
  - cbn [app shown_reasons flat_map].
    rewrite <- (map_map strip (fun r => st_write (py "- " ++ r))).
    apply shown_reasons_writes.
Qed.

(** ** The failure marker *)

Lemma show_verdict_no_error s body : st_error body ∉ show_verdict s.
Proof.
  rewrite show_verdict_calls. rewrite !elem_of_app, !elem_of_cons, elem_of_nil.
  rewrite list_elem_of_fmap. intros [[H|[H|[H|[]]]] | (line & H & _)]; discriminate H.
Qed.

(** C2. When the generation request raises, [generate_gemini_analysis]
    returns a text that begins with the failure marker. A text in
    which the marker occurs anywhere is shown as an error and as
    nothing else; a text in which it does not occur is shown as a
    decision and its reasons, without an error: the decision is the
    first line of the text, the reasons are its later lines that are
    not blank, in their order, each without the white space at its
    ends. *)
Theorem failure_marker_detection (srv : services) (data : stock_data)
  (news : list article) (s : pystr) :
  (forall e, gemini_generate_content srv (analysis_prompt data news) 500 = Raises e ->
     generate_gemini_analysis srv data news
       = cross_mark ++ py " Gemini Analysis Error: " ++ exn_msg e /\
     occurs_in cross_mark (generate_gemini_analysis srv data news) /\
     show_analysis (generate_gemini_analysis srv data news)
       = [st_error (generate_gemini_analysis srv data news)]) /\
  (occurs_in cross_mark s -> show_analysis s = [st_error s]) /\
  (~ occurs_in cross_mark s ->
     show_analysis s = show_verdict s /\
     (forall body, st_error body ∉ show_analysis s) /\
     shown_headline (show_analysis s) = [hd [] (split newline s)] /\
     shown_reasons (show_analysis s)
       = map strip (List.filter not_blank (List.tl (split newline s))) /\
     show_analysis s =
       [st_markdown (py "### Decision Recommendation");
        st_success (hd [] (split newline s));
        st_markdown (py "### Key Reasons")]
       ++ map (fun line => st_write (py "- " ++ strip line))
            (List.filter not_blank (List.tl (split newline s)))).
Proof.
  assert (forall t, occurs_in cross_mark t -> show_analysis t = [st_error t]) as Herr.
  { intros t Ht. apply contains_occurs in Ht. unfold show_analysis. by rewrite Ht. }
  split; [|split].
  - intros e He.
    assert (generate_gemini_analysis srv data news
            = cross_mark ++ py " Gemini Analysis Error: " ++ exn_msg e) as Hg
      by (unfold generate_gemini_analysis; by rewrite He).
    assert (occurs_in cross_mark (generate_gemini_analysis srv data news)) as Ho
      by (rewrite Hg; by exists [], (py " Gemini Analysis Error: " ++ exn_msg e)).
    auto.
  - apply Herr.
  - intros Hs. apply not_contains_occurs in Hs.
    unfold show_analysis. rewrite Hs. cbn [negb].
    split; [done|]. split; [intros body; apply show_verdict_no_error|].
    split; [apply shown_headline_verdict|]. split; [apply shown_reasons_verdict|].
    apply show_verdict_calls.
Qed.

Lemma failure_marker_detection_witness :
  show_analysis
    (generate_gemini_analysis
       (answering (Returns acme_info) (Returns []) (Returns acme_news) (Raises timeout))
       acme_snapshot acme_news)
  = [st_error (cross_mark ++ py " Gemini Analysis Error: timed out")] /\
  shown_headline (show_analysis (text_lines ["Sell"; "- overvalued"; ""; " weak guidance "]))
  = [py "Sell"] /\
  shown_reasons (show_analysis (text_lines ["Sell"; "- overvalued"; ""; " weak guidance "]))
  = [py "- overvalued"; py "weak guidance"].
Proof.
  destruct (failure_marker_detection
    (answering (Returns acme_info) (Returns []) (Returns acme_news) (Raises timeout))
    acme_snapshot acme_news (text_lines ["Sell"; "- overvalued"; ""; " weak guidance "]))
    as (H & _ & Hok).
  destruct (H timeout eq_refl) as (_ & _ & Hshow).
  split; [exact Hshow|].
  assert (~ occurs_in cross_mark (text_lines ["Sell"; "- overvalued"; ""; " weak guidance "]))
    as Hfree by (apply not_contains_occurs; vm_compute; reflexivity).
  destruct (Hok Hfree) as (_ & _ & Hhead & Hreasons & _).
  split; [exact Hhead | exact Hreasons].
Defined.

(** * Further properties *)

(** ** [fetch_stock_data] *)

(** X1. A fetch that returns [None] has made exactly one error report,
    and the report tells the stage that failed: the generic report for
    a failed history request or a failure after the info check, the
    info report for a failed info request, the no-data report for an
    empty info payload. *)
Theorem fetch_report_cause (srv : services) (ticker : pystr) calls :
  fetch_stock_data srv ticker = (calls, None) ->
  exists report, calls = [st_error report] /\
    ((exists e, yf_history srv ticker (py "1y") = Raises e /\
        report = py "Unexpected error fetching stock data: " ++ exn_msg e) \/
     (exists hist_data,
        yf_history srv ticker (py "1y") = Returns hist_data /\
        ((exists e, yf_info srv ticker = Raises e /\
            report = py "Error fetching stock info: " ++ exn_msg e) \/
         (yf_info srv ticker = Returns ∅ /\
            report = py "No data found for ticker: " ++ ticker) \/
         (exists info e,
            yf_info srv ticker = Returns info /\ info <> ∅ /\
            raised_after_info srv ticker info e /\
            report = py "Unexpected error fetching stock data: " ++ exn_msg e)))).
Proof.
  unfold fetch_stock_data, mbind, outcome_bind, mret, outcome_ret, unexpected.
  destruct (yf_history srv ticker (py "1y")) as [h|e0].
  2:{ intros [= <-]. eexists. split; [done|]. left. by exists e0. }
  destruct (yf_info srv ticker) as [info|e1].
  2:{ intros [= <-]. eexists. split; [done|]. right. exists h. split; [done|].
      left. by exists e1. }
  destruct (dict_truthy info) eqn:Ht; cbn [negb].
  - destruct (snapshot_of srv ticker h info) as [d|e2] eqn:Hs; intros [= <-].
    eexists. split; [done|]. right. exists h. split; [done|]. right. right.
    exists info, e2. split; [done|]. split.
    + intros ->. by vm_compute in Ht.
    + split; [by apply (snapshot_of_raises srv ticker h)|done].
  - intros [= <-]. apply dict_truthy_empty in Ht as ->.
    eexists. split; [done|]. right. exists h. split; [done|]. right. by left.
Qed.

Lemma fetch_report_cause_witness :
  let srv := answering (Raises timeout) (Returns []) (Returns []) (Returns []) in
  exists report,
    [st_error (py "Error fetching stock info: timed out")] = [st_error report] /\
    ((exists e, yf_history srv acme (py "1y") = Raises e /\
        report = py "Unexpected error fetching stock data: " ++ exn_msg e) \/
     (exists hist_data,
        yf_history srv acme (py "1y") = Returns hist_data /\
        ((exists e, yf_info srv acme = Raises e /\
            report = py "Error fetching stock info: " ++ exn_msg e) \/
         (yf_info srv acme = Returns ∅ /\
            report = py "No data found for ticker: " ++ acme) \/
         (exists info e,
            yf_info srv acme = Returns info /\ info <> ∅ /\
            raised_after_info srv acme info e /\
            report = py "Unexpected error fetching stock data: " ++ exn_msg e)))).
Proof.
  exact (fetch_report_cause
    (answering (Raises timeout) (Returns []) (Returns []) (Returns [])) acme
    [st_error (py "Error fetching stock info: timed out")] eq_refl).
Defined.

(** X2. A snapshot is returned only for a payload whose [marketCap] is
    there and is a number: with the key absent, or with [None] or a
    string under it, line 62 raises and no snapshot is returned. *)
Theorem snapshot_has_numeric_market_cap (srv : services) (ticker : pystr) calls data info :
  yf_info srv ticker = Returns info ->
  fetch_stock_data srv ticker = (calls, Some data) ->
  exists v, info !! "marketCap" = Some v /\ is_number v.
Proof.
  intros Hi Hf.
  destruct (fetch_snapshot_fields srv ticker calls data info Hi Hf) as (Hmc & _).
  unfold market_cap_field, get, mbind, outcome_bind in Hmc.
  destruct (info !! "marketCap") as [[| | | |]|]; try discriminate Hmc; by eexists.
Qed.

Lemma snapshot_has_numeric_market_cap_witness :
  exists v, acme_info !! "marketCap" = Some v /\ is_number v.
Proof.
  eapply (snapshot_has_numeric_market_cap
    (answering (Returns acme_info) (Returns []) (Returns acme_news) (Returns [])) acme).
  - reflexivity.
  - vm_compute. reflexivity.
Defined.

(** X3. The seven fields read with a plain default hold the payload's
    value whenever the key is there, [None] included: the marker
    stands for an absent key only. *)
Theorem present_fields_verbatim (srv : services) (ticker : pystr) calls data info :
  yf_info srv ticker = Returns info ->
  fetch_stock_data srv ticker = (calls, Some data) ->
  (forall v, info !! "longName" = Some v -> Company_Name (Basic_Info data) = v) /\
  (forall v, info !! "sector" = Some v -> Sector (Basic_Info data) = v) /\
  (forall v, info !! "industry" = Some v -> Industry (Basic_Info data) = v) /\
  (forall v, info !! "currentPrice" = Some v -> Current (Current_Price data) = v) /\
  (forall v, info !! "fiftyTwoWeekHigh" = Some v -> Week_52_High (Current_Price data) = v) /\
  (forall v, info !! "fiftyTwoWeekLow" = Some v -> Week_52_Low (Current_Price data) = v) /\
  (forall v, info !! "trailingPE" = Some v -> PE_Ratio (Financial_Health data) = v).
Proof.
  intros Hi Hf.
  apply fetch_Some_inv in Hf as (_ & h & info' & _ & Hi' & _ & Hs).
  rewrite Hi in Hi'. injection Hi' as <-.
  unfold snapshot_of, mbind, outcome_bind, mret, outcome_ret in Hs.
  destruct (ddgs_news srv (news_query info ticker) 10); [|discriminate].
  destruct (market_cap_field info); [|discriminate].
  destruct (percent_field info "dividendYield"); [|discriminate].
  destruct (percent_field info "returnOnEquity"); [|discriminate].
  injection Hs as <-. unfold get. cbn.
  repeat split; by intros v ->.
Qed.

Lemma present_fields_verbatim_witness :
  exists calls data,
    fetch_stock_data
      (answering (Returns acme_info_none_sector) (Returns []) (Returns acme_news) (Returns [])) acme
    = (calls, Some data) /\
    Sector (Basic_Info data) = PyNone.
Proof.
  eexists _, _. split; [vm_compute; reflexivity|].
  refine (proj1 (proj2 (present_fields_verbatim
    (answering (Returns acme_info_none_sector) (Returns []) (Returns acme_news) (Returns []))
    acme _ _ acme_info_none_sector eq_refl eq_refl)) PyNone _).
  vm_compute. reflexivity.
Defined.

(** X4. The news of a snapshot is the whole answer of the search, for
    at most 10 results, to the company's long name followed by
    [" stock news"], or to the ticker followed by it when the payload
    has no long name; the history is the whole answer of the history
    request for one year. *)
Theorem snapshot_news_and_history (srv : services) (ticker : pystr) calls data info :
  yf_info srv ticker = Returns info ->
  fetch_stock_data srv ticker = (calls, Some data) ->
  yf_history srv ticker (py "1y") = Returns (Historical_Data data) /\
  (forall name, info !! "longName" = Some (PyStr name) ->
     ddgs_news srv (name ++ py " stock news") 10 = Returns (News data)) /\
  (info !! "longName" = None ->
     ddgs_news srv (ticker ++ py " stock news") 10 = Returns (News data)).
Proof.
  intros Hi Hf.
  apply fetch_Some_inv in Hf as (_ & h & info' & Hh & Hi' & _ & Hs).
  rewrite Hi in Hi'. injection Hi' as <-.
  apply snapshot_of_inv in Hs as (n & mc & dy & r & Hn & _ & _ & _ & _ & _ & _ & _ & <- & <-).
  unfold news_query, get in Hn.
  split; [done|]. split.
  - intros name Hname. by rewrite Hname in Hn.
  - intros Hname. by rewrite Hname in Hn.
Qed.

Lemma snapshot_news_and_history_witness :
  exists calls data,
    fetch_stock_data (answering (Returns acme_info) (Returns []) (Returns acme_news) (Returns [])) acme
    = (calls, Some data) /\
    ddgs_news (answering (Returns acme_info) (Returns []) (Returns acme_news) (Returns []))
      (py "Acme Corp stock news") 10 = Returns (News data).
Proof.
  eexists _, _. split; [vm_compute; reflexivity|].
  refine (proj1 (proj2 (snapshot_news_and_history
    (answering (Returns acme_info) (Returns []) (Returns acme_news) (Returns []))
    acme _ _ acme_info eq_refl eq_refl)) (py "Acme Corp") _).
  vm_compute. reflexivity.
Defined.

Lemma tail_not_nil n (df : frame) : (0 < n)%nat -> df <> [] -> tail n df <> [].
Proof.
  intros Hn Hdf H. apply (f_equal length) in H. rewrite tail_length in H.
  destruct df; [done|]. cbn in H. lia.
Qed.

(** X5. The recommendations of a snapshot are empty exactly when the
    recommendations request raised or returned an empty frame, one
    without rows or without columns. *)
Theorem recommendations_empty_iff (srv : services) (ticker : pystr) calls data :
  fetch_stock_data srv ticker = (calls, Some data) ->
  Recommendations data = [] <->
  (exists e, yf_recommendations srv ticker = Raises e) \/
  (exists rows, yf_recommendations srv ticker = Returns rows /\
                Forall (fun row => row = ∅) rows).
Proof.
  intros Hf.
  destruct (fetch_Some_inv srv ticker calls data Hf) as (_ & h & info & _ & Hi & _ & _).
  destruct (fetch_snapshot_fields srv ticker calls data info Hi Hf) as (_ & _ & _ & ->).
  unfold recommendations_or_empty.
  destruct (yf_recommendations srv ticker) as [rows|e].
  - destruct (frame_empty rows) eqn:E; cbn [negb].
    + split; [|done]. intros _. right. exists rows. split; [done|].
      by apply frame_empty_true.
    + split.
      * intros H. apply tail_not_nil in H; [done | lia |]. by intros ->.
      * intros [[e [=]] | (rows' & [= <-] & Hall)].
        apply frame_empty_true in Hall. congruence.
  - split; [left; by exists e | done].
Qed.

Lemma recommendations_empty_iff_witness :
  exists calls data,
    fetch_stock_data
      (answering (Returns acme_info) (Returns three_bare_rows) (Returns acme_news) (Returns [])) acme
    = (calls, Some data) /\
    Recommendations data = [].
Proof.
  eexists _, _. split; [vm_compute; reflexivity|].
  apply (recommendations_empty_iff
    (answering (Returns acme_info) (Returns three_bare_rows) (Returns acme_news) (Returns []))
    acme _ _ eq_refl).
  right. exists three_bare_rows. split; [reflexivity|]. repeat constructor.
Defined.

(** ** [generate_gemini_analysis] and [display_ai_decision_support] *)

(** X6. The prompt is made of six fields of the snapshot (name, sector,
    market cap, current price, P/E ratio, dividend yield) and the
    titles of the first three articles, and of nothing else: industry,
    ROE, the 52-week prices, recommendations, history, the sources and
    links of the articles and the articles after the third do not
    reach it. *)
Theorem prompt_depends_on (data data' : stock_data) (news news' : list article) :
  Company_Name (Basic_Info data) = Company_Name (Basic_Info data') ->
  Sector (Basic_Info data) = Sector (Basic_Info data') ->
  Market_Cap (Basic_Info data) = Market_Cap (Basic_Info data') ->
  Current (Current_Price data) = Current (Current_Price data') ->
  PE_Ratio (Financial_Health data) = PE_Ratio (Financial_Health data') ->
  Dividend_Yield (Financial_Health data) = Dividend_Yield (Financial_Health data') ->
  top_titles news = top_titles news' ->
  analysis_prompt data news = analysis_prompt data' news'.
Proof.
  intros H1 H2 H3 H4 H5 H6 Ht. unfold analysis_prompt.
  rewrite H1, H2, H3, H4, H5, H6.
  assert (map (fun a : article => py "Title: " ++ get a "title" NA) (take 3 news)
          = map (fun a : article => py "Title: " ++ get a "title" NA) (take 3 news')) as ->;
    [|done].
  unfold top_titles in Ht.
  apply (f_equal (map (fun t : option pystr =>
    py "Title: " ++ match t with Some v => v | None => NA end))) in Ht.
  by rewrite !map_map in Ht.
Qed.

Lemma prompt_depends_on_witness :
  analysis_prompt acme_snapshot (acme_news ++ [∅; ∅])
  = analysis_prompt (with_history [bar 1 None])
      [<["title" := py "Acme ships"]> ∅; ∅; ∅; <["title" := py "fourth"]> ∅].
Proof.
  apply prompt_depends_on; reflexivity.
Defined.

(** X7. A text the generation returned (no failure) in which the
    marker occurs is shown as an error all the same: the page ends
    with that text in an error box and shows no decision. *)
Theorem returned_marker_shown_as_error (srv : services) (data : stock_data) (text : pystr) :
  gemini_generate_content srv (analysis_prompt data (News data)) 500 = Returns text ->
  occurs_in cross_mark text ->
  last (display_ai_decision_support srv data) = Some (st_error text) /\
  shown_headline (display_ai_decision_support srv data) = [].
Proof.
  intros Hg Ht. unfold display_ai_decision_support, generate_gemini_analysis.
  rewrite Hg. apply contains_occurs in Ht. unfold show_analysis. rewrite Ht. cbn [negb].
  split.
  - rewrite !app_assoc. apply last_snoc.
  - unfold shown_headline. rewrite !flat_map_app. cbn.
    rewrite app_nil_r. generalize (take 3 (News data)). intros l. by induction l.
Qed.

Lemma returned_marker_shown_as_error_witness :
  last (display_ai_decision_support
          (answering (Returns acme_info) (Returns []) (Returns acme_news)
             (Returns (py "Buy " ++ cross_mark)))
          acme_snapshot)
  = Some (st_error (py "Buy " ++ cross_mark)).
Proof.
  refine (proj1 (returned_marker_shown_as_error
    (answering (Returns acme_info) (Returns []) (Returns acme_news)
       (Returns (py "Buy " ++ cross_mark)))
    acme_snapshot (py "Buy " ++ cross_mark) eq_refl _)).
  exists (py "Buy "), []. reflexivity.
Defined.

Lemma lstrip_suffix s : exists pre, s = pre ++ lstrip s.
Proof.
  induction s as [|c s (pre & IH)]; [by exists []|].
  cbn. destruct (isspace c); [|by exists []].
  exists (c :: pre). cbn. by rewrite <- IH.
Qed.

Lemma strip_head line c : head (strip line) = Some c -> isspace c = false.
Proof.
  unfold strip. destruct (lstrip (rstrip line)) as [|d r] eqn:E; [discriminate|].
  intros [= ->]. by apply lstrip_head in E.
Qed.

Lemma strip_last line c : last (strip line) = Some c -> isspace c = false.
Proof.
  unfold strip. intros H.
  destruct (lstrip_suffix (rstrip line)) as (pre & Hpre).
  assert (last (rstrip line) = Some c) as Hl.
  { rewrite Hpre. destruct (lstrip (rstrip line)) as [|d r]; [discriminate|].
    rewrite last_app_cons. exact H. }
  unfold rstrip in Hl. rewrite last_reverse in Hl.
  destruct (lstrip (reverse line)) as [|d r] eqn:E; [discriminate|].
  injection Hl as ->. by apply lstrip_head in E.
Qed.

Lemma strip_elem line c : c ∈ strip line -> c ∈ line.
Proof.
  unfold strip, rstrip. intros H.
  destruct (lstrip_suffix (reverse (lstrip (reverse line)))) as (pre & Hpre).
  assert (c ∈ reverse (lstrip (reverse line))) as H1
    by (rewrite Hpre; apply elem_of_app; by right).
  apply (proj1 (elem_of_reverse _ _)) in H1.
  destruct (lstrip_suffix (reverse line)) as (pre' & Hpre').
  apply elem_of_reverse. rewrite Hpre'. apply elem_of_app. by right.
Qed.

(** X8. Every reason shown is a text that is not empty, neither
    begins nor ends with white space and holds no newline; and there
    are fewer reasons than lines in the analysis. *)
Theorem shown_reasons_clean (s r : pystr) :
  r ∈ shown_reasons (show_verdict s) ->
  r <> [] /\
  (forall c, head r = Some c -> isspace c = false) /\
  (forall c, last r = Some c -> isspace c = false) /\
  (newline ∉ r) /\
  (length (shown_reasons (show_verdict s)) < length (split newline s))%nat.
Proof.
  rewrite shown_reasons_verdict. intros Hr.
  apply list_elem_of_fmap in Hr as (line & -> & Hline).
  apply list_elem_of_In, filter_In in Hline as [Hin Hnb].
  split; [|split; [|split; [|split]]].
  - intros Hnil. apply strip_nil in Hnil. unfold not_blank in Hnb. by rewrite Hnil in Hnb.
  - apply strip_head.
  - apply strip_last.
  - intros Hnl. apply strip_elem in Hnl.
    pose proof (split_no_sep newline s) as Hall.
    destruct (split_cons newline s) as (l & ls & Hs). rewrite Hs in *.
    cbn [List.tl] in Hin. apply list_elem_of_In in Hin.
    apply Forall_cons in Hall as [_ Hall].
    by apply (proj1 (Forall_forall _ _) Hall line Hin).
  - rewrite length_map.
    destruct (split_cons newline s) as (l & ls & Hs). rewrite Hs. cbn [List.tl length].
    pose proof (filter_length_le not_blank ls). lia.
Qed.

Lemma shown_reasons_clean_witness :
  py "x" <> [] /\
  (forall c, head (py "x") = Some c -> isspace c = false) /\
  (forall c, last (py "x") = Some c -> isspace c = false) /\
  (newline ∉ py "x") /\
  (length (shown_reasons (show_verdict (text_lines ["Buy"; "  x "; ""])))
   < length (split newline (text_lines ["Buy"; "  x "; ""])))%nat.
Proof.
  apply (shown_reasons_clean (text_lines ["Buy"; "  x "; ""]) (py "x")).
  vm_compute. apply list_elem_of_here.
Defined.

(** ** [display_overview_section] *)

Lemma overview_calls (data : stock_data) :
  display_overview_section data =
  [call (st_header (py "Company Overview: " ++ str (Company_Name (Basic_Info data))));
   st_columns 3;
   st_metric 0 (py "Sector") (Sector (Basic_Info data));
   st_metric 1 (py "Market Cap") (PyStr (Market_Cap (Basic_Info data)));
   st_metric 2 (py "Industry") (Industry (Basic_Info data));
   call (st_subheader (py "Price Performance"));
   st_columns 3;
   st_metric 0 (py "Current") (Current (Current_Price data));
   st_metric 1 (py "52 Week High") (Week_52_High (Current_Price data));
   st_metric 2 (py "52 Week Low") (Week_52_Low (Current_Price data));
   call (st_subheader (py "Financial Health"));
   st_columns 3;
   st_metric 0 (py "P/E Ratio") (PE_Ratio (Financial_Health data));
   st_metric 1 (py "Dividend Yield") (PyStr (Dividend_Yield (Financial_Health data)));
   st_metric 2 (py "ROE") (PyStr (ROE (Financial_Health data)));
   call (st_subheader (py "Recent Analyst Recommendations"));
   if negb (frame_empty (Recommendations data))
   then st_dataframe (Recommendations data)
   else call (st_write (py "No recent recommendations available"))].
Proof. reflexivity. Qed.

(** X9. The overview ends with the table of the recommendations when
    their frame is not empty (some row has a cell), and with the line
    that none are available when it is empty (no rows, or rows without
    columns); it never shows both, and it writes nothing else. *)
Theorem overview_recommendations (data : stock_data) :
  ((exists row, row ∈ Recommendations data /\ row <> ∅) ->
     last (display_overview_section data) = Some (st_dataframe (Recommendations data)) /\
     forall body, call (st_write body) ∉ display_overview_section data) /\
  (Forall (fun row => row = ∅) (Recommendations data) ->
     last (display_overview_section data)
       = Some (call (st_write (py "No recent recommendations available"))) /\
     forall df, st_dataframe df ∉ display_overview_section data).
Proof.
  rewrite overview_calls. split; intros Hr.
  - apply frame_empty_false in Hr. rewrite Hr. cbn [negb]. split; [reflexivity|].
    intros body Hin. repeat (apply elem_of_cons in Hin as [Hin|Hin]; [discriminate Hin|]).
    by apply elem_of_nil in Hin.
  - apply frame_empty_true in Hr. rewrite Hr. cbn [negb]. split; [reflexivity|].
    intros df Hin. repeat (apply elem_of_cons in Hin as [Hin|Hin]; [discriminate Hin|]).
    by apply elem_of_nil in Hin.
Qed.

Lemma overview_recommendations_witness :
  last (display_overview_section
          {| Basic_Info := Basic_Info acme_snapshot;
             Current_Price := Current_Price acme_snapshot;
             Financial_Health := Financial_Health acme_snapshot;
             Recommendations := three_bare_rows;
             Historical_Data := [];
             News := [] |})
  = Some (call (st_write (py "No recent recommendations available"))).
Proof.
  refine (proj1 (proj2 (overview_recommendations _) _)).
  cbn [Recommendations]. repeat constructor.
Defined.

Lemma has_column_tail n (df : frame) : has_column df -> has_column (tail n df).
Proof. intros [c Hc]. exists c. unfold tail. by apply Forall_drop. Qed.

(** X10. After a fetch whose recommendations request raised, or
    returned a frame without rows or without columns, the overview of
    the snapshot ends with the line that no recommendations are
    available; after one whose request returned rows of a frame with a
    column, it ends with the table of the last five of them. *)
Theorem overview_after_fetch (srv : services) (ticker : pystr) calls data :
  fetch_stock_data srv ticker = (calls, Some data) ->
  (forall e, yf_recommendations srv ticker = Raises e ->
     last (display_overview_section data)
       = Some (call (st_write (py "No recent recommendations available")))) /\
  (forall rows, yf_recommendations srv ticker = Returns rows ->
     Forall (fun row => row = ∅) rows ->
     last (display_overview_section data)
       = Some (call (st_write (py "No recent recommendations available")))) /\
  (forall rows, yf_recommendations srv ticker = Returns rows ->
     rows <> [] -> has_column rows ->
     last (display_overview_section data)
       = Some (st_dataframe (drop (length rows - 5) rows))).
Proof.
  intros Hf.
  destruct (fetch_Some_inv srv ticker calls data Hf) as (_ & h & info & _ & Hi & _ & _).
  destruct (fetch_snapshot_fields srv ticker calls data info Hi Hf) as (_ & _ & _ & Hrec).
  unfold recommendations_or_empty in Hrec. rewrite overview_calls. split; [|split].
  - intros e He. rewrite He in Hrec. cbn in Hrec. by rewrite Hrec.
  - intros rows Hr Hall. rewrite Hr in Hrec.
    apply frame_empty_true in Hall. rewrite Hall in Hrec. cbn [negb] in Hrec.
    by rewrite Hrec.
  - intros rows Hr Hne Hcol. rewrite Hr in Hrec.
    rewrite (has_column_not_empty rows Hcol Hne) in Hrec. cbn [negb] in Hrec.
    rewrite Hrec.
    rewrite (has_column_not_empty (tail 5 rows)
               (has_column_tail 5 rows Hcol) (tail_not_nil 5 rows ltac:(lia) Hne)).
    reflexivity.
Qed.

Lemma overview_after_fetch_witness :
  exists calls data,
    fetch_stock_data (answering (Returns acme_info) (Returns eight_ratings) (Returns acme_news) (Returns [])) acme
    = (calls, Some data) /\
    last (display_overview_section data) = Some (st_dataframe (map rating [4; 5; 6; 7; 8])).
Proof.
  eexists _, _. split; [vm_compute; reflexivity|].
  refine (proj2 (proj2 (overview_after_fetch
    (answering (Returns acme_info) (Returns eight_ratings) (Returns acme_news) (Returns []))
    acme _ _ eq_refl)) eight_ratings eq_refl _ _).
  - discriminate.
  - exists "period". repeat constructor; vm_compute; by eexists.
Defined.

(** ** [display_price_charts], [plot_stock_price] and [plot_volume_chart] *)

Lemma plot_stock_price_returns (pd : pandas) (hist_data : frame) :
  (exists fig, plot_stock_price pd hist_data = Returns fig) <->
  (forall c, c ∈ price_columns -> exists col, df_column pd hist_data c = Returns col).
Proof.
  unfold plot_stock_price, mbind, outcome_bind, mret, outcome_ret, price_columns. split.
  - intros [fig H] c Hc.
    destruct (df_column pd hist_data (py "Open")) as [o|] eqn:Ho; [|discriminate].
    destruct (df_column pd hist_data (py "High")) as [h|] eqn:Hh; [|discriminate].
    destruct (df_column pd hist_data (py "Low")) as [l|] eqn:Hl; [|discriminate].
    destruct (df_column pd hist_data (py "Close")) as [cl|] eqn:Hcl; [|discriminate].
    repeat (apply elem_of_cons in Hc as [->|Hc]; [by eexists|]).
    by apply elem_of_nil in Hc.
  - intros H.
    destruct (H (py "Open")) as [o ->]; [repeat constructor|].
    destruct (H (py "High")) as [h ->]; [repeat constructor|].
    destruct (H (py "Low")) as [l ->]; [repeat constructor|].
    destruct (H (py "Close")) as [cl ->]; [repeat constructor|].
    by eexists.
Qed.

(** X11. The charts page ends without an exception exactly when the
    four price columns and the volume column can all be selected from
    the history, and it then shows two charts. *)
Theorem charts_complete_iff (pd : pandas) (data : stock_data) :
  (snd (display_price_charts pd data) = None <->
   forall c, c ∈ price_columns ++ [py "Volume"] ->
     exists col, df_column pd (Historical_Data data) c = Returns col) /\
  (snd (display_price_charts pd data) = None ->
   length (List.filter is_chart (fst (display_price_charts pd data))) = 2%nat).
Proof.
  unfold display_price_charts.
  pose proof (plot_stock_price_returns pd (Historical_Data data)) as Hp.
  destruct (plot_stock_price pd (Historical_Data data)) as [fig|e].
  - unfold plot_volume_chart, mbind, outcome_bind, mret, outcome_ret.
    destruct (df_column pd (Historical_Data data) (py "Volume")) as [y|e] eqn:Hv; cbn [fst snd].
    + split; [|done]. split; [|done]. intros _ c Hc.
      apply elem_of_app in Hc as [Hc|Hc].
      * apply (proj1 Hp); [by eexists | done].
      * apply list_elem_of_singleton in Hc as ->. by eexists.
    + split; [|done]. split; [done|]. intros H.
      destruct (H (py "Volume")) as [col Hcol]; [apply elem_of_app; right; repeat constructor|].
      rewrite Hv in Hcol. discriminate Hcol.
  - cbn [fst snd]. split; [|done]. split; [done|]. intros H.
    destruct (proj2 Hp) as [fig Hfig]; [|discriminate Hfig].
    intros c Hc. apply H, elem_of_app. by left.
Qed.

Lemma charts_complete_iff_witness :
  snd (display_price_charts by_rows (with_history [bar 1 (Some 500); bar 2 (Some 700)])) = None /\
  length (List.filter is_chart
    (fst (display_price_charts by_rows (with_history [bar 1 (Some 500); bar 2 (Some 700)]))))
  = 2%nat.
Proof.
  assert (snd (display_price_charts by_rows
            (with_history [bar 1 (Some 500); bar 2 (Some 700)])) = None) as H.
  { apply (proj1 (charts_complete_iff by_rows
      (with_history [bar 1 (Some 500); bar 2 (Some 700)]))).
    intros c Hc.
    repeat (apply elem_of_cons in Hc as [->|Hc]; [eexists; vm_compute; reflexivity|]).
    by apply elem_of_nil in Hc. }
  split; [exact H|].
  exact (proj2 (charts_complete_iff by_rows
    (with_history [bar 1 (Some 500); bar 2 (Some 700)])) H).
Defined.

(** X12. When one of the four price columns cannot be selected, the
    charts page shows its two headings and ends with an exception: no
    chart is shown, the volume chart included. *)
Theorem charts_without_price_column (pd : pandas) (data : stock_data) c e :
  c ∈ price_columns ->
  df_column pd (Historical_Data data) c = Raises e ->
  exists e',
    display_price_charts pd data =
      ([call (st_header (py "Price Analysis: " ++ str (Company_Name (Basic_Info data))));
        call (st_subheader (py "Stock Price Movement"))],
       Some e').
Proof.
  intros Hc He. unfold display_price_charts.
  pose proof (plot_stock_price_returns pd (Historical_Data data)) as Hp.
  destruct (plot_stock_price pd (Historical_Data data)) as [fig|e']; [|by exists e'].
  destruct (proj1 Hp (ex_intro _ fig eq_refl) c Hc) as [col Hcol].
  rewrite He in Hcol. discriminate Hcol.
Qed.

Lemma charts_without_price_column_witness :
  exists e',
    display_price_charts by_rows (with_history [∅]) =
      ([call (st_header (py "Price Analysis: Acme Corp"));
        call (st_subheader (py "Stock Price Movement"))],
       Some e').
Proof.
  apply (charts_without_price_column by_rows (with_history [∅]) (py "Low")
    (Exn "KeyError" (py "'Low'"))).
  - repeat constructor.
  - vm_compute. reflexivity.
Defined.

(** X13. When the four price columns can be selected and the volume
    column cannot, the price chart is shown, then the heading of the
    volume chart, and the page ends with the exception of the volume
    column. *)
Theorem charts_without_volume (pd : pandas) (data : stock_data) e :
  (forall c, c ∈ price_columns -> exists col, df_column pd (Historical_Data data) c = Returns col) ->
  df_column pd (Historical_Data data) (py "Volume") = Raises e ->
  exists price_chart,
    plot_stock_price pd (Historical_Data data) = Returns price_chart /\
    display_price_charts pd data =
      ([call (st_header (py "Price Analysis: " ++ str (Company_Name (Basic_Info data))));
        call (st_subheader (py "Stock Price Movement"));
        st_plotly_chart price_chart;
        call (st_subheader (py "Trading Volume"))],
       Some e).
Proof.
  intros Hp Hv. apply plot_stock_price_returns in Hp as [fig Hfig].
  exists fig. split; [done|].
  unfold display_price_charts. rewrite Hfig.
  unfold plot_volume_chart, mbind, outcome_bind. by rewrite Hv.
Qed.

Lemma charts_without_volume_witness :
  exists price_chart,
    plot_stock_price by_rows [bar 1 None] = Returns price_chart /\
    display_price_charts by_rows (with_history [bar 1 None]) =
      ([call (st_header (py "Price Analysis: Acme Corp"));
        call (st_subheader (py "Stock Price Movement"));
        st_plotly_chart price_chart;
        call (st_subheader (py "Trading Volume"))],
       Some (Exn "KeyError" (py "'Volume'"))).
Proof.
  apply (charts_without_volume by_rows (with_history [bar 1 None])
    (Exn "KeyError" (py "'Volume'"))).
  - intros c Hc.
    repeat (apply elem_of_cons in Hc as [->|Hc]; [eexists; vm_compute; reflexivity|]).
    by apply elem_of_nil in Hc.
  - vm_compute. reflexivity.
Defined.

(** ** [__init__], [display_dashboard] and the script *)

Lemma init_session_lookup (ss : gmap string value) :
  init_session ss !! "ticker" = Some (default (PyStr (py "NVDA")) (ss !! "ticker")).
Proof.
  unfold init_session. destruct (ss !! "ticker") as [v|] eqn:E; [done|].
  by rewrite lookup_insert_eq.
Qed.

(** X14. The session part of [__init__] leaves a session that has a
    ticker, which is the one it had or ["NVDA"] when it had none; it
    changes no other key and doing it again changes nothing. *)
Theorem init_session_ticker (ss : gmap string value) :
  (forall v, ss !! "ticker" = Some v -> init_session ss = ss) /\
  (ss !! "ticker" = None -> init_session ss !! "ticker" = Some (PyStr (py "NVDA"))) /\
  (forall k, k <> "ticker" -> init_session ss !! k = ss !! k) /\
  init_session (init_session ss) = init_session ss.
Proof.
  unfold init_session. repeat split.
  - by intros v ->.
  - intros ->. apply lookup_insert_eq.
  - intros k Hk. destruct (ss !! "ticker"); [done|]. by rewrite lookup_insert_ne.
  - destruct (ss !! "ticker") as [v|] eqn:E; [by rewrite E|]. by rewrite lookup_insert_eq.
Qed.

Lemma init_session_ticker_witness :
  init_session (<["ticker" := PyStr acme]> ∅) = <["ticker" := PyStr acme]> ∅ /\
  init_session ∅ !! "ticker" = Some (PyStr (py "NVDA")).
Proof.
  split.
  - apply (proj1 (init_session_ticker (<["ticker" := PyStr acme]> ∅)) (PyStr acme)).
    reflexivity.
  - apply (proj1 (proj2 (init_session_ticker ∅))). reflexivity.
Defined.

(** X15. While the button is not pressed, the dashboard shows its
    title and the sidebar widgets and nothing else, whatever the
    services would answer, and the session takes the ticker of the
    text input. *)
Theorem dashboard_idle (srv : services) (pd : pandas) (ui : streamlit)
  (ss : gmap string value) offered :
  ss !! "ticker" = Some offered ->
  button ui (py "Analyze Stock") = false ->
  display_dashboard srv pd ui ss =
    {| final_state := <["ticker" := PyStr (text_input ui (py "Enter Stock Ticker") offered)]> ss;
       shown := dashboard_widgets offered;
       raised := None |}.
Proof. intros Ht Hb. unfold display_dashboard. by rewrite Ht, Hb. Qed.

Lemma dashboard_idle_witness :
  display_dashboard
    (answering (Raises timeout) (Raises timeout) (Raises timeout) (Raises timeout))
    by_rows (user acme (py "Overview") false) (<["ticker" := PyStr (py "NVDA")]> ∅)
  = {| final_state := <["ticker" := PyStr acme]> (<["ticker" := PyStr (py "NVDA")]> ∅);
       shown := dashboard_widgets (PyStr (py "NVDA"));
       raised := None |}.
Proof.
  apply (dashboard_idle
    (answering (Raises timeout) (Raises timeout) (Raises timeout) (Raises timeout))
    by_rows (user acme (py "Overview") false) (<["ticker" := PyStr (py "NVDA")]> ∅)
    (PyStr (py "NVDA"))); reflexivity.
Defined.



Lemma fetch_same_data (srv srv' : services) (ticker : pystr) :
  same_data_services srv srv' ->
  fetch_stock_data srv ticker = fetch_stock_data srv' ticker.
Proof.
  destruct srv, srv'. unfold same_data_services. cbn.
  intros (-> & -> & -> & ->). reflexivity.
Qed.

(** X17. With the analysis type ["Overview"] or ["Price Charts"] the
    dashboard does not depend on the text generation: two service
    records that differ only there give the same run. *)
Theorem dashboard_without_generation (srv srv' : services) (pd : pandas) (ui : streamlit)
  (ss : gmap string value) :
  same_data_services srv srv' ->
  radio ui (py "Select Analysis Type") analysis_types = py "Overview" \/
  radio ui (py "Select Analysis Type") analysis_types = py "Price Charts" ->
  display_dashboard srv pd ui ss = display_dashboard srv' pd ui ss.
Proof.
  intros Hs Hr. unfold display_dashboard.
  destruct (ss !! "ticker") as [offered|]; [|done].
  destruct (button ui (py "Analyze Stock")); [|done].
  rewrite (fetch_same_data srv srv' _ Hs).
  destruct (fetch_stock_data srv' _) as [reports [data|]]; [|done].
  unfold display_section. destruct Hr as [-> | ->]; reflexivity.
Qed.

Lemma dashboard_without_generation_witness :
  display_dashboard
    (answering (Returns acme_info) (Returns []) (Returns acme_news) (Raises timeout))
    by_rows (user acme (py "Overview") true) (<["ticker" := PyStr acme]> ∅)
  = display_dashboard
      (answering (Returns acme_info) (Returns []) (Returns acme_news) (Returns (py "Buy")))
      by_rows (user acme (py "Overview") true) (<["ticker" := PyStr acme]> ∅).
Proof.
  apply dashboard_without_generation.
  - repeat split.
  - left. reflexivity.
Defined.

Lemma dashboard_state (srv : services) (pd : pandas) (ui : streamlit)
  (ss : gmap string value) offered :
  ss !! "ticker" = Some offered ->
  final_state (display_dashboard srv pd ui ss)
    = <["ticker" := PyStr (text_input ui (py "Enter Stock Ticker") offered)]> ss /\
  (exists rest, shown (display_dashboard srv pd ui ss) = dashboard_widgets offered ++ rest) /\
  (forall e, raised (display_dashboard srv pd ui ss) = Some e ->
     button ui (py "Analyze Stock") = true /\
     radio ui (py "Select Analysis Type") analysis_types = py "Price Charts" /\
     exists data, snd (display_price_charts pd data) = Some e).
Proof.
  intros Ht. unfold display_dashboard. rewrite Ht.
  destruct (button ui (py "Analyze Stock")).
  2:{ cbn. split; [done|]. split; [by exists []|]. intros e [=]. }
  destruct (fetch_stock_data srv _) as [reports [data|]].
  2:{ cbn. split; [done|]. split; [by eexists|]. intros e [=]. }
  unfold display_section.
  case_bool_decide as Ho.
  { cbn. split; [done|]. split; [by eexists|]. intros e [=]. }
  case_bool_decide as Hc.
  - destruct (display_price_charts pd data) as [section e0] eqn:Hd. cbn.
    split; [done|]. split; [by eexists|].
    intros e ->. split; [done|]. split; [done|]. exists data. by rewrite Hd.
  - cbn. split; [done|]. split; [by eexists|]. intros e [=].
Qed.

(** X18. A run of the script never ends on the session lacking its
    ticker: the only exception that can end it is one of the charts
    page, with the button pressed and ["Price Charts"] chosen. In
    every case the session ends with the ticker of the text input,
    which was offered the session's ticker or ["NVDA"], and with its
    other keys as they were. *)
Theorem main_session (srv : services) (pd : pandas) (ui : streamlit) (ss : gmap string value) :
  final_state (main srv pd ui ss) !! "ticker"
    = Some (PyStr (text_input ui (py "Enter Stock Ticker")
                     (default (PyStr (py "NVDA")) (ss !! "ticker")))) /\
  (forall k, k <> "ticker" -> final_state (main srv pd ui ss) !! k = ss !! k) /\
  (forall e, raised (main srv pd ui ss) = Some e ->
     button ui (py "Analyze Stock") = true /\
     radio ui (py "Select Analysis Type") analysis_types = py "Price Charts" /\
     exists data, snd (display_price_charts pd data) = Some e).
Proof.
  unfold main, init. cbn [final_state raised].
  destruct (dashboard_state srv pd ui (init_session ss) _ (init_session_lookup ss))
    as (Hstate & _ & Hraised).
  rewrite Hstate. split; [apply lookup_insert_eq|]. split; [|exact Hraised].
  intros k Hk. rewrite lookup_insert_ne by done.
  unfold init_session. destruct (ss !! "ticker"); [done|]. by rewrite lookup_insert_ne.
Qed.

Lemma final_ticker_of_main (srv : services) (pd : pandas) (ui : streamlit)
  (ss : gmap string value) :
  final_state (main srv pd ui ss) !! "ticker"
  = Some (PyStr (text_input ui (py "Enter Stock Ticker")
                   (default (PyStr (py "NVDA")) (ss !! "ticker")))).
Proof.
  unfold main, init. cbn [final_state].
  destruct (dashboard_state srv pd ui (init_session ss) _ (init_session_lookup ss))
    as (Hstate & _ & _).
  rewrite Hstate. apply lookup_insert_eq.
Qed.

(** X19. The text input of a run is offered the ticker that the run
    before it took from the text input (which had been offered the
    session's ticker, or ["NVDA"]), whatever else happened in that
    run; on a session without a ticker it is offered ["NVDA"]. *)
Theorem rerun_offers_last_ticker (srv srv' : services) (pd pd' : pandas) (ui ui' : streamlit)
  (ss : gmap string value) :
  (ss !! "ticker" = None ->
     st_sidebar_text_input (py "Enter Stock Ticker") (PyStr (py "NVDA"))
       ∈ shown (main srv pd ui ss)) /\
  final_state (main srv pd ui ss) !! "ticker"
    = Some (PyStr (text_input ui (py "Enter Stock Ticker")
                     (default (PyStr (py "NVDA")) (ss !! "ticker")))) /\
  st_sidebar_text_input (py "Enter Stock Ticker")
    (PyStr (text_input ui (py "Enter Stock Ticker")
              (default (PyStr (py "NVDA")) (ss !! "ticker"))))
    ∈ shown (main srv' pd' ui' (final_state (main srv pd ui ss))) /\
  (forall offered,
     st_sidebar_text_input (py "Enter Stock Ticker") offered
       ∈ shown (main srv' pd' ui' (final_state (main srv pd ui ss))) ->
     offered = PyStr (text_input ui (py "Enter Stock Ticker")
                        (default (PyStr (py "NVDA")) (ss !! "ticker")))).
Proof.
  assert (forall s p u (state : gmap string value) offered,
    state !! "ticker" = Some offered ->
    exists rest, shown (main s p u state)
                 = st_set_page_config (py "Stock Analysis Dashboard") chart_increasing (py "wide")
                   :: dashboard_widgets offered ++ rest) as Hshown.
  { intros s p u state offered Ho. unfold main, init. cbn [shown].
    assert (init_session state = state) as -> by (unfold init_session; by rewrite Ho).
    destruct (dashboard_state s p u state offered Ho) as (_ & [rest ->] & _).
    by exists rest. }
  split; [|split; [|split]].
  - intros Hnone. unfold main, init. cbn [shown].
    pose proof (init_session_lookup ss) as Hl. rewrite Hnone in Hl. cbn in Hl.
    destruct (dashboard_state srv pd ui (init_session ss) _ Hl) as (_ & [rest ->] & _).
    unfold dashboard_widgets. set_solver.
  - apply final_ticker_of_main.
  - destruct (Hshown srv' pd' ui' _ _ (final_ticker_of_main srv pd ui ss)) as [rest ->].
    unfold dashboard_widgets. set_solver.
  - intros offered Hin.
    pose proof (final_ticker_of_main srv pd ui ss) as Hlast.
    revert Hin. generalize dependent (final_state (main srv pd ui ss)).
    intros state Hlast. unfold main, init. cbn [shown].
    assert (init_session state = state) as -> by (unfold init_session; by rewrite Hlast).
    unfold display_dashboard. rewrite Hlast.
    assert (forall l : list st_call,
      st_sidebar_text_input (py "Enter Stock Ticker") offered ∉ map call l) as Hcalls.
    { intros l Hl. apply list_elem_of_fmap in Hl as (c & [=] & _). }
    assert (forall data,
      st_sidebar_text_input (py "Enter Stock Ticker") offered
        ∉ fst (display_section srv' pd' (radio ui' (py "Select Analysis Type") analysis_types) data))
      as Hsection.
    { intros data. unfold display_section.
      case_bool_decide; [|case_bool_decide].
      - cbn [fst]. rewrite overview_calls. intros Hin.
        destruct (negb (frame_empty (Recommendations data)));
          repeat (apply elem_of_cons in Hin as [Hin|Hin]; [discriminate Hin|]);
          by apply elem_of_nil in Hin.
      - unfold display_price_charts.
        destruct (plot_stock_price pd' (Historical_Data data));
          [destruct (plot_volume_chart pd' (Historical_Data data))|]; cbn; intros Hin;
          repeat (apply elem_of_cons in Hin as [Hin|Hin]; [discriminate Hin|]);
          by apply elem_of_nil in Hin.
      - cbn [fst]. apply Hcalls. }
    destruct (button ui' (py "Analyze Stock")).
    + destruct (fetch_stock_data srv' _) as [reports [data|]].
      * specialize (Hsection data).
        destruct (display_section srv' pd' _ data) as [section e]. cbn [shown fst] in *.
        intros Hin. apply elem_of_cons in Hin as [Hin|Hin]; [discriminate Hin|].
        repeat (apply elem_of_cons in Hin as [Hin|Hin];
                [first [discriminate Hin | by injection Hin]|]).
        apply elem_of_app in Hin as [Hin|Hin]; [by apply Hcalls in Hin | by apply Hsection in Hin].
      * cbn [shown]. intros Hin. apply elem_of_cons in Hin as [Hin|Hin]; [discriminate Hin|].
        repeat (apply elem_of_cons in Hin as [Hin|Hin];
                [first [discriminate Hin | by injection Hin]|]).
        by apply Hcalls in Hin.
    + cbn [shown]. intros Hin. apply elem_of_cons in Hin as [Hin|Hin]; [discriminate Hin|].
      repeat (apply elem_of_cons in Hin as [Hin|Hin];
              [first [discriminate Hin | by injection Hin]|]).
      by apply elem_of_nil in Hin.
Qed.

Lemma main_session_witness :
  button (user acme (py "Price Charts") true) (py "Analyze Stock") = true /\
  radio (user acme (py "Price Charts") true) (py "Select Analysis Type") analysis_types
    = py "Price Charts" /\
  exists data, snd (display_price_charts no_columns data) = Some (Exn "KeyError" (py "'Open'")).
Proof.
  apply (proj2 (proj2 (main_session
    (answering (Returns acme_info) (Returns []) (Returns acme_news) (Returns []))
    no_columns (user acme (py "Price Charts") true) ∅))).
  vm_compute. reflexivity.
Defined.

Lemma rerun_offers_last_ticker_witness :
  st_sidebar_text_input (py "Enter Stock Ticker") (PyStr (py "NVDA"))
    ∈ shown (main (answering (Returns acme_info) (Returns []) (Returns acme_news) (Returns []))
               by_rows (user acme (py "Overview") false) ∅) /\
  st_sidebar_text_input (py "Enter Stock Ticker") (PyStr acme)
    ∈ shown (main (answering (Returns acme_info) (Returns []) (Returns acme_news) (Returns []))
               by_rows (user (py "MSFT") (py "Overview") true)
               (final_state
                  (main (answering (Returns acme_info) (Returns []) (Returns acme_news) (Returns []))
                     by_rows (user acme (py "Overview") false) ∅))).
Proof.
  destruct (rerun_offers_last_ticker
    (answering (Returns acme_info) (Returns []) (Returns acme_news) (Returns []))
    (answering (Returns acme_info) (Returns []) (Returns acme_news) (Returns []))
    by_rows by_rows (user acme (py "Overview") false) (user (py "MSFT") (py "Overview") true) ∅)
    as (Hfresh & _ & Hnext & _).
  split; [apply Hfresh; reflexivity | exact Hnext].
Defined.
